(** * ubxScope: the spectrum aggregation of [ubxScope.py]

    A shallow embedding of the part of [ubxScope.py] that is not plotting
    layout: the message routing of [UBXScopeQueue], the aggregation done by
    [UBXScope.onUBXMessage] (running maximum and two-term running average of
    the spectrum of every RF block), the deferred publication
    [UBXScope.updateSpectrumPlot] and the reset
    [UBXScope.cmaVisibleChangeHandler].

    Conventions of the embedding.
    - A NumPy array of dimension one is a [list Q]: float64 values are
      idealised as exact rationals, compared with [Qeq] ([==]).
    - [spectrumDataSource.data] is a Python dict from series names to arrays:
      a [gmap string (list Q)].
    - Python exceptions are the [Raise] results of [result]; code that
      mutates the object before it raises returns the mutated state together
      with the exception.
    - NumPy's behaviour is taken from NumPy 1.24 and later: [np.maximum]
      broadcasts a length-one operand and raises [ValueError] on any other
      length mismatch, [np.array] raises [ValueError] on rows of unequal
      length. *)

From Stdlib Require Import QArith Qminmax Lqa.
From stdpp Require Import gmap strings list fin_maps pretty.

Close Scope Q_scope.
Local Open Scope nat_scope.

(** ** Python values and exceptions *)

Inductive exn : Set := KeyError | IndexError | ValueError | TypeError.

Inductive result (A : Type) : Type :=
  | Ok (a : A)
  | Raise (e : exn).
Arguments Ok {A} a.
Arguments Raise {A} e.

Global Instance result_ret : MRet result := fun A a => Ok a.
Global Instance result_bind : MBind result := fun A B f m =>
  match m with
  | Ok a => f a
  | Raise e => Raise e
  end.

(** A NumPy array of dimension one. *)
Abbreviation array := (list Q).

(** [d[k]] on a dict. *)
Definition getitem (d : gmap string array) (k : string) : result array :=
  match d !! k with
  | Some v => Ok v
  | None => Raise KeyError
  end.

(** [l[i]] on a list. *)
Definition getitem_list {A} (l : list A) (i : nat) : result A :=
  match l !! i with
  | Some v => Ok v
  | None => Raise IndexError
  end.

(** [l[i] = v] on a list: Python raises out of range. *)
Definition setitem_list {A} (l : list A) (i : nat) (v : A) : result (list A) :=
  if decide (i < length l) then Ok (<[i := v]> l) else Raise IndexError.

(** ** The NumPy operations the program uses *)

Definition np_zeros (n : nat) : array := replicate n 0%Q.

(** [np.maximum(x1, x2)] on arrays of dimension one. *)
Definition np_maximum (x1 x2 : array) : result array :=
  if decide (length x1 = length x2) then Ok (zip_with Qmax x1 x2)
  else match x1, x2 with
       | [a], _ => Ok (Qmax a <$> x2)
       | _, [b] => Ok ((fun a => Qmax a b) <$> x1)
       | _, _ => Raise ValueError
       end.

(** [np.mean(np.array([r0, r1]), axis=0)]: the sum of the two rows over
    their number. *)
Definition np_mean2 (r0 r1 : array) : result array :=
  if decide (length r0 = length r1)
  then Ok (zip_with (fun a b => (a + b) / 2)%Q r0 r1)
  else Raise ValueError.

(** ** Messages of the parsing library *)

(** [msg.spectra[block]]: a dict with these three keys. *)
Record spectrum_block : Type := {
  spectrumBinCenterFreqs : array;
  spectrum : array;
  pga : Z
}.

(** A decoded UBX message; [className] is [msg.__class__.__name__]. The
    other two fields are those a SPAN message carries. *)
Record ubx_msg : Type := {
  className : string;
  numRfBlocks : nat;
  spectra : list spectrum_block
}.

(** What [UBXManager] reports to its overridable methods. *)
Inductive event : Type :=
  | EvUBX (msg : ubx_msg)
  | EvUBXError (msgClass msgId : Z) (errMsg : string)
  | EvNMEA (msg : string)
  | EvNMEAError (msg : string).

(** ** State of [UBXScope] *)

(** An entry of [newSpectrumMetaData], which starts as
    [[self.numRfBlocks, None]]. *)
Inductive pyobj : Type :=
  | PyInt (n : nat)
  | PyNone
  | PyDict (pga : Z).

(** [partial(self.updateSpectrumPlot, spectrumData=..., spectrumMetaData=...)] *)
Record callback : Type := {
  cb_spectrumData : gmap string array;
  cb_spectrumMetaData : list pyobj
}.

Record scope : Type := {
  data : gmap string array;      (* self.spectrumDataSource.data *)
  labels : list string;          (* self.blockMetadataLabels[i].text *)
  next_tick : list callback      (* the document's pending next-tick callbacks *)
}.

Definition SPAN_BIN_COUNT : nat := 256.

(** [self.numRfBlocks], set once in [__init__]. *)
Definition self_numRfBlocks : nat := 2.

(** The f-string [f'<kind>_{block}']. *)
Definition key (kind : string) (block : nat) : string :=
  kind +:+ "_" +:+ pretty block.

Definition seriesKinds : list string :=
  ["spectrumBinCenterFreqs"; "spectrum"; "spectrumMaxima"; "spectrumCMA"].

(** [for x in xs: acc = body(acc, x)], stopping at the first exception. *)
Fixpoint for_each {A S} (body : S -> A -> result S) (xs : list A) (acc : S)
  : result S :=
  match xs with
  | [] => Ok acc
  | x :: rest =>
      match body acc x with
      | Ok acc' => for_each body rest acc'
      | Raise e => Raise e
      end
  end.

(** Python's [range(n)]. *)
Definition range (n : nat) : list nat := seq 0 n.

(** The data source set up by [__init__]. *)
Definition init_block (dataSourceDict : gmap string array) (block : nat)
  : gmap string array :=
  let d := <[key "spectrumBinCenterFreqs" block := np_zeros SPAN_BIN_COUNT]> dataSourceDict in
  let d := <[key "spectrumMaxima" block := np_zeros SPAN_BIN_COUNT]> d in
  let d := <[key "spectrumCMA" block := np_zeros SPAN_BIN_COUNT]> d in
  <[key "spectrum" block := np_zeros SPAN_BIN_COUNT]> d.

Definition init : scope := {|
  data := fold_left init_block (range self_numRfBlocks) ∅;
  labels := replicate self_numRfBlocks "NO_DATA";
  next_tick := []
|}.

(** ** [UBXScope.cmaVisibleChangeHandler] *)

Definition cmaVisibleChangeHandler (new : bool) (s : scope) : scope :=
  if new then
    {| data := fold_left
                 (fun d block => <[key "spectrumCMA" block := np_zeros 256]> d)
                 (range self_numRfBlocks) (data s);
       labels := labels s;
       next_tick := next_tick s |}
  else s.

(** ** [UBXScope.updateSpectrumPlot] *)

Definition label_text (pgaGain : Z) : string :=
  "PGA Gain: " +:+ pretty pgaGain +:+ " dB".

(** The loop over [enumerate(spectrumMetaData)]; [block['pga']] raises
    [TypeError] on an entry that is an int or [None]. *)
Fixpoint update_labels (lbls : list string) (index : nat) (meta : list pyobj)
  : list string * result unit :=
  match meta with
  | [] => (lbls, Ok tt)
  | PyDict pgaGain :: rest =>
      if decide (index < length lbls)
      then update_labels (<[index := label_text pgaGain]> lbls) (S index) rest
      else (lbls, Raise IndexError)
  | _ :: _ => (lbls, Raise TypeError)
  end.

Definition updateSpectrumPlot (spectrumData : gmap string array)
    (spectrumMetaData : list pyobj) (s : scope) : scope * result unit :=
  let (lbls, r) := update_labels (labels s) 0 spectrumMetaData in
  ({| data := spectrumData; labels := lbls; next_tick := next_tick s |}, r).

(** ** [UBXScope.onUBXMessage] *)

(** The body of the loop over [range(msg.numRfBlocks)]. [d] is
    [self.spectrumDataSource.data], the accumulator is
    [(newSpectrumData, newSpectrumMetaData)]. *)
Definition span_block (d : gmap string array) (msg : ubx_msg)
    (acc : gmap string array * list pyobj) (block : nat)
  : result (gmap string array * list pyobj) :=
  blk ← getitem_list (spectra msg) block;
  let nd := <[key "spectrumBinCenterFreqs" block := spectrumBinCenterFreqs blk]> acc.1 in
  let nd := <[key "spectrum" block := spectrum blk]> nd in
  x1 ← getitem nd (key "spectrum" block);
  x2 ← getitem d (key "spectrumMaxima" block);
  mx ← np_maximum x1 x2;
  let nd := <[key "spectrumMaxima" block := mx]> nd in
  r0 ← getitem nd (key "spectrum" block);
  r1 ← getitem d (key "spectrumCMA" block);
  cma ← np_mean2 r0 r1;
  let nd := <[key "spectrumCMA" block := cma]> nd in
  nm ← setitem_list acc.2 block (PyDict (pga blk));
  Ok (nd, nm).

(** The SPAN branch up to the call of [add_next_tick_callback]. *)
Definition span_payload (d : gmap string array) (msg : ubx_msg)
  : result (gmap string array * list pyobj) :=
  for_each (span_block d msg) (range (numRfBlocks msg))
           (∅, [PyInt self_numRfBlocks; PyNone]).

Definition onUBXMessage (msg : ubx_msg) (msgClass : string) (s : scope)
  : scope * result unit :=
  if decide (msgClass = "SPAN") then
    match span_payload (data s) msg with
    | Ok (newSpectrumData, newSpectrumMetaData) =>
        ({| data := data s;
            labels := labels s;
            next_tick := next_tick s ++
              [{| cb_spectrumData := newSpectrumData;
                  cb_spectrumMetaData := newSpectrumMetaData |}] |},
         Ok tt)
    | Raise e => (s, Raise e)
    end
  else (s, Ok tt).

(** ** [UBXScopeQueue] *)

Definition onUBXError (msgClass msgId : Z) (errMsg : string) (s : scope)
  : scope * result unit := (s, Ok tt).
Definition onNMEA (msg : string) (s : scope) : scope * result unit := (s, Ok tt).
Definition onNMEAError (msg : string) (s : scope) : scope * result unit :=
  (s, Ok tt).

(** [onUBXCallback] is [UBXScope.onUBXMessage]. *)
Definition onUBX (msg : ubx_msg) (s : scope) : scope * result unit :=
  if decide (className msg ∈ ["SPAN"; "PVT"])
  then onUBXMessage msg (className msg) s
  else (s, Ok tt).

(** How the message source calls the methods of [UBXScopeQueue]. *)
Definition dispatch (ev : event) (s : scope) : scope * result unit :=
  match ev with
  | EvUBX msg => onUBX msg s
  | EvUBXError msgClass msgId errMsg => onUBXError msgClass msgId errMsg s
  | EvNMEA msg => onNMEA msg s
  | EvNMEAError msg => onNMEAError msg s
  end.

(** ** The rendering context *)

(** One tick of the document: the oldest pending callback runs. *)
Definition run_next_tick (s : scope) : scope * result unit :=
  match next_tick s with
  | [] => (s, Ok tt)
  | cb :: rest =>
      updateSpectrumPlot (cb_spectrumData cb) (cb_spectrumMetaData cb)
        {| data := data s; labels := labels s; next_tick := rest |}
  end.

(** ** The operations of the specification *)

(** [update]: a SPAN message is aggregated and its payload published before
    the next message arrives. *)
Definition update (msg : ubx_msg) (s : scope) : scope * result unit :=
  match onUBXMessage msg "SPAN" s with
  | (s1, Ok _) => run_next_tick s1
  | (s1, Raise e) => (s1, Raise e)
  end.

(** [reset]: the averaged trace becomes visible again. *)
Definition reset (s : scope) : scope := cmaVisibleChangeHandler true s.

Inductive op : Type :=
  | Update (msg : ubx_msg)
  | Reset (new : bool).

Definition apply_op (o : op) (s : scope) : scope * result unit :=
  match o with
  | Update msg => update msg s
  | Reset new => (cmaVisibleChangeHandler new s, Ok tt)
  end.

(** A sequence of updates and resets, stopping at the first exception. *)
Fixpoint run (ops : list op) (s : scope) : scope * result unit :=
  match ops with
  | [] => (s, Ok tt)
  | o :: rest =>
      match apply_op o s with
      | (s1, Ok _) => run rest s1
      | (s1, Raise e) => (s1, Raise e)
      end
  end.

(** A sequence of reports of the message source. *)
Fixpoint feed (evs : list event) (s : scope) : scope * result unit :=
  match evs with
  | [] => (s, Ok tt)
  | ev :: rest =>
      match dispatch ev s with
      | (s1, Ok _) => feed rest s1
      | (s1, Raise e) => (s1, Raise e)
      end
  end.

(** The snapshots of a sequence of operations, oldest first. *)
Definition updates (ops : list op) : list ubx_msg :=
  omap (fun o => match o with Update m => Some m | Reset _ => None end) ops.

(** The power value of bin [i] of block [b] of a snapshot. *)
Definition bin_value (m : ubx_msg) (b i : nat) : Q :=
  default 0%Q (blk ← spectra m !! b; spectrum blk !! i).

(** ** Sample messages *)

Definition flat_block (n : nat) (v : Q) : spectrum_block :=
  {| spectrumBinCenterFreqs := np_zeros n; spectrum := replicate n v; pga := 0 |}.

Definition flat_span (blocks n : nat) (v : Q) : ubx_msg :=
  {| className := "SPAN"; numRfBlocks := blocks;
     spectra := replicate blocks (flat_block n v) |}.

(** ** Auxiliary notions of the proofs *)

(** The payload entries of one block. *)
Definition with_block (nd : gmap string array) (b : nat) (blk : spectrum_block)
    (mx cma : array) : gmap string array :=
  <[key "spectrumCMA" b := cma]>
    (<[key "spectrumMaxima" b := mx]>
       (<[key "spectrum" b := spectrum blk]>
          (<[key "spectrumBinCenterFreqs" b := spectrumBinCenterFreqs blk]> nd))).

(** What the payload holds for block [b] once the loop is through. *)
Definition block_done (d : gmap string array) (msg : ubx_msg)
    (nd' : gmap string array) (nm' : list pyobj) (b : nat) : Prop :=
  exists blk pm pc mx cma,
    spectra msg !! b = Some blk /\
    d !! key "spectrumMaxima" b = Some pm /\
    d !! key "spectrumCMA" b = Some pc /\
    np_maximum (spectrum blk) pm = Ok mx /\
    np_mean2 (spectrum blk) pc = Ok cma /\
    nd' !! key "spectrumBinCenterFreqs" b = Some (spectrumBinCenterFreqs blk) /\
    nd' !! key "spectrum" b = Some (spectrum blk) /\
    nd' !! key "spectrumMaxima" b = Some mx /\
    nd' !! key "spectrumCMA" b = Some cma /\
    nm' !! b = Some (PyDict (pga blk)).

(** Every running-maximum and running-mean series held has
    [SPAN_BIN_COUNT] bins, and no running maximum is below zero. *)
Definition data_ok (d : gmap string array) : Prop :=
  forall (b : nat) (l : array),
    (d !! key "spectrumMaxima" b = Some l ->
       length l = SPAN_BIN_COUNT /\ Forall (Qle 0) l) /\
    (d !! key "spectrumCMA" b = Some l -> length l = SPAN_BIN_COUNT).

Definition scope_ok (s : scope) : Prop :=
  data_ok (data s) /\
  Forall (fun cb => data_ok (cb_spectrumData cb)) (next_tick s).

(** The states of a running program: messages are aggregated, ticks
    publish, the reset handler fires, in any order; an exception ends the
    call that raised it and leaves the object as it then is. *)
Inductive reachable : scope -> Prop :=
  | reach_init : reachable init
  | reach_message s msg msgClass s' r :
      reachable s -> onUBXMessage msg msgClass s = (s', r) -> reachable s'
  | reach_tick s s' r :
      reachable s -> run_next_tick s = (s', r) -> reachable s'
  | reach_reset s new :
      reachable s -> reachable (cmaVisibleChangeHandler new s).

(** The value the running maximum of bin [i] of block [b] has after [ops]:
    the zero the series starts from, raised by every snapshot in turn. *)
Definition running_max (ops : list op) (b i : nat) : Q :=
  fold_left (fun acc m => Qmax (bin_value m b i) acc) (updates ops) 0%Q.

(** The snapshots that came after the last reset that fired. *)
Fixpoint since_reset (ops : list op) (acc : list ubx_msg) : list ubx_msg :=
  match ops with
  | [] => acc
  | Update m :: rest => since_reset rest (acc ++ [m])
  | Reset true :: rest => since_reset rest []
  | Reset false :: rest => since_reset rest acc
  end.

(** The largest of a non-empty list of values. *)
Definition true_max (xs : list Q) : option Q :=
  match xs with
  | [] => None
  | x :: rest => Some (fold_left Qmax rest x)
  end.

(** The arithmetic mean of a list of values. *)
Definition true_mean (xs : list Q) : Q :=
  (fold_right Qplus 0 xs / inject_Z (Z.of_nat (length xs)))%Q.

(** A snapshot of two blocks with the power values [xs] in both. *)
Definition span_of (xs : array) : ubx_msg := {|
  className := "SPAN";
  numRfBlocks := 2;
  spectra := replicate 2 {| spectrumBinCenterFreqs := np_zeros (length xs);
                            spectrum := xs; pga := 0 |}
|}.

(** The four values followed by zeros up to [SPAN_BIN_COUNT] bins. *)
Definition padded (xs : array) : array :=
  xs ++ np_zeros (SPAN_BIN_COUNT - length xs).

(** A report of the message source that is a decoded SPAN message. *)
Definition is_SPAN (ev : event) : bool :=
  match ev with
  | EvUBX msg => bool_decide (className msg = "SPAN")
  | _ => false
  end.

(** The value the running mean of bin [i] of block [b] has after [ops]:
    zero at the start and after every reset that fires, halved together with
    the value of every snapshot in turn. *)
Definition running_mean (ops : list op) (b i : nat) : Q :=
  fold_left (fun acc o =>
               match o with
               | Update m => ((bin_value m b i + acc) / 2)%Q
               | Reset true => 0%Q
               | Reset false => acc
               end) ops 0%Q.


(** The number of SPAN messages among the reports of the message source. *)
Definition span_count (evs : list event) : nat :=
  length (List.filter is_SPAN evs).

(** The payload of a message against the data of a scope, [(∅, [])] when
    the loop raises. *)
Definition onUBXMessage_payload_of (msg : ubx_msg) (s : scope)
  : gmap string array * list pyobj :=
  match span_payload (data s) msg with
  | Ok p => p
  | Raise _ => (∅, [])
  end.

(** The SPAN messages among the reports of the message source, oldest
    first. *)
Definition span_msgs (evs : list event) : list ubx_msg :=
  omap (fun ev => match ev with
                  | EvUBX m => if is_SPAN ev then Some m else None
                  | _ => None
                  end) evs.

(** [k] ticks of the document; a callback that raises does not stop the
    loop of the document. *)
Fixpoint run_ticks (k : nat) (s : scope) : scope :=
  match k with
  | 0 => s
  | S k' => run_ticks k' (run_next_tick s).1
  end.

(** The callback scheduled for a message aggregated against the data [d]. *)
Definition callback_of (d : gmap string array) (msg : ubx_msg) : callback :=
  match span_payload d msg with
  | Ok p => {| cb_spectrumData := p.1; cb_spectrumMetaData := p.2 |}
  | Raise _ => {| cb_spectrumData := ∅; cb_spectrumMetaData := [] |}
  end.

(** ** The claims as the specification words them *)

(** C1 as the specification words it: after any successful sequence of
    updates and resets, the running maximum of a bin is the largest value
    that bin had in the snapshots since the last reset. *)
Definition max_since_last_reset_claim : Prop :=
  forall (ops : list op) (s : scope) (b i : nat) (mx : array) (v : Q),
    run ops init = (s, Ok tt) -> b < 2 -> i < SPAN_BIN_COUNT ->
    data s !! key "spectrumMaxima" b = Some mx ->
    true_max ((fun m => bin_value m b i) <$> since_reset ops []) = Some v ->
    exists x, mx !! i = Some x /\ (x == v)%Q.

(** C2 as the specification words it: the reset zeroes the running
    maximum and the running mean of every block at the bin count they had,
    keeps the current series, and the next update gives maximum = current
    and mean = current / 2. *)
Definition reset_zeroes_both_claim : Prop :=
  forall (s : scope) (b : nat),
    reachable s -> next_tick s = [] -> b < 2 ->
    (forall pm, data s !! key "spectrumMaxima" b = Some pm ->
       data (reset s) !! key "spectrumMaxima" b = Some (np_zeros (length pm))) /\
    (forall pc, data s !! key "spectrumCMA" b = Some pc ->
       data (reset s) !! key "spectrumCMA" b = Some (np_zeros (length pc))) /\
    data (reset s) !! key "spectrum" b = data s !! key "spectrum" b /\
    (forall msg s' blk,
       update msg (reset s) = (s', Ok tt) -> spectra msg !! b = Some blk ->
       data s' !! key "spectrumMaxima" b = Some (spectrum blk) /\
       exists cma, data s' !! key "spectrumCMA" b = Some cma /\
                   Forall2 Qeq cma ((fun c => c / 2)%Q <$> spectrum blk)).

(** C4 as the specification words it: when the bin count of a block of the
    snapshot differs from that of the stored series, the update returns and
    the running maximum and mean of the block are those of a block freshly
    reset at the new bin count. *)
Definition rebaseline_claim : Prop :=
  forall (s : scope) (msg : ubx_msg) (b : nat) (blk : spectrum_block) (pm : array),
    reachable s -> next_tick s = [] ->
    b < numRfBlocks msg -> spectra msg !! b = Some blk ->
    data s !! key "spectrumMaxima" b = Some pm ->
    length (spectrum blk) <> length pm ->
    exists s',
      update msg s = (s', Ok tt) /\
      data s' !! key "spectrumMaxima" b
        = Some (zip_with Qmax (spectrum blk) (np_zeros (length (spectrum blk)))) /\
      data s' !! key "spectrumCMA" b
        = Some (zip_with (fun c p => (c + p) / 2)%Q (spectrum blk)
                         (np_zeros (length (spectrum blk)))).

(** C6 as the specification words it: from the zero baseline the program
    starts with, the four-bin snapshots [10,20,30,40] and [15,5,35,10] are
    each taken by an update, with the stated maxima and means. *)
Definition four_bin_example_claim : Prop :=
  exists s1 s2,
    update (span_of [10; 20; 30; 40]%Q) init = (s1, Ok tt) /\
    update (span_of [15; 5; 35; 10]%Q) s1 = (s2, Ok tt) /\
    forall b, b < 2 ->
      data s1 !! key "spectrumMaxima" b = Some [10; 20; 30; 40]%Q /\
      (exists mean1, data s1 !! key "spectrumCMA" b = Some mean1 /\
                     Forall2 Qeq mean1 [5; 10; 15; 20]%Q) /\
      data s2 !! key "spectrumMaxima" b = Some [15; 20; 35; 40]%Q /\
      (exists mean2, data s2 !! key "spectrumCMA" b = Some mean2 /\
                     Forall2 Qeq mean2 [10; 15 # 2; 25; 15]%Q).

(** ** Series names *)

Lemma key_inj (kind kind' : string) (b b' : nat) :
  kind ∈ seriesKinds -> kind' ∈ seriesKinds ->
  key kind b = key kind' b' -> kind = kind' /\ b = b'.
Proof.
  unfold seriesKinds, key. intros Hk Hk' E.
  repeat match goal with
         | H : _ ∈ _ :: _ |- _ => apply elem_of_cons in H; destruct H as [->|H]
         | H : _ ∈ [] |- _ => apply elem_of_nil in H; destruct H
         end;
    cbn in E; try discriminate E; split; try reflexivity;
    repeat (injection E as E); exact (pretty_nat_inj _ _ E).
Qed.

Lemma key_ne (kind kind' : string) (b b' : nat) :
  kind ∈ seriesKinds -> kind' ∈ seriesKinds ->
  kind <> kind' \/ b <> b' -> key kind b <> key kind' b'.
Proof.
  intros Hk Hk' Hne E. destruct (key_inj _ _ _ _ Hk Hk' E) as [-> ->].
  destruct Hne as [Hne|Hne]; apply Hne; reflexivity.
Qed.

Global Opaque key.

Ltac kind_in := first [assumption | unfold seriesKinds; repeat constructor].

(** Distinct series names, for the lookups through the four inserts. *)
Ltac key_neq :=
  apply key_ne; [kind_in | kind_in | first [left; discriminate | right; lia | right; congruence]].

Example update_flat :
  (data (update (flat_span 2 256 10) init).1) !! key "spectrumCMA" 1
  = Some (replicate 256 ((10 + 0) / 2)%Q).
Proof. vm_compute. reflexivity. Qed.

(** ** One block of the SPAN branch *)

Lemma span_block_Ok d msg nd nm b nd' nm' :
  span_block d msg (nd, nm) b = Ok (nd', nm') ->
  exists blk pm pc mx cma,
    spectra msg !! b = Some blk /\
    d !! key "spectrumMaxima" b = Some pm /\
    d !! key "spectrumCMA" b = Some pc /\
    np_maximum (spectrum blk) pm = Ok mx /\
    np_mean2 (spectrum blk) pc = Ok cma /\
    b < length nm /\
    nd' = with_block nd b blk mx cma /\
    nm' = <[b := PyDict (pga blk)]> nm.
Proof.
  unfold span_block, getitem_list, getitem, setitem_list, mbind, result_bind; cbn [fst snd].
  destruct (spectra msg !! b) as [blk|] eqn:Hblk; [|discriminate].
  rewrite lookup_insert_eq.
  destruct (d !! key "spectrumMaxima" b) as [pm|] eqn:Hpm; [|discriminate].
  destruct (np_maximum (spectrum blk) pm) as [mx|] eqn:Hmx; [|discriminate].
  rewrite lookup_insert_ne by key_neq. rewrite lookup_insert_eq.
  destruct (d !! key "spectrumCMA" b) as [pc|] eqn:Hpc; [|discriminate].
  destruct (np_mean2 (spectrum blk) pc) as [cma|] eqn:Hcma; [|discriminate].
  destruct (decide (b < length nm)) as [Hlt|]; [|discriminate].
  intros [= <- <-]. exists blk, pm, pc, mx, cma. repeat split; assumption.
Qed.

Lemma with_block_other nd b blk mx cma (k : string) :
  (forall kind, kind ∈ seriesKinds -> k <> key kind b) ->
  with_block nd b blk mx cma !! k = nd !! k.
Proof.
  intros Hk. unfold with_block.
  rewrite !lookup_insert_ne; [reflexivity|..]; intros E; symmetry in E;
    revert E; apply Hk; kind_in.
Qed.

Lemma with_block_lookup nd b blk mx cma :
  with_block nd b blk mx cma !! key "spectrumBinCenterFreqs" b = Some (spectrumBinCenterFreqs blk) /\
  with_block nd b blk mx cma !! key "spectrum" b = Some (spectrum blk) /\
  with_block nd b blk mx cma !! key "spectrumMaxima" b = Some mx /\
  with_block nd b blk mx cma !! key "spectrumCMA" b = Some cma.
Proof.
  unfold with_block. repeat split.
  - do 3 (rewrite lookup_insert_ne by key_neq). apply lookup_insert_eq.
  - do 2 (rewrite lookup_insert_ne by key_neq). apply lookup_insert_eq.
  - rewrite lookup_insert_ne by key_neq. apply lookup_insert_eq.
  - apply lookup_insert_eq.
Qed.

Lemma with_block_size nd b blk mx cma :
  (forall kind, kind ∈ seriesKinds -> nd !! key kind b = None) ->
  size (with_block nd b blk mx cma) = 4 + size nd.
Proof.
  intros Hfresh. unfold with_block.
  rewrite !map_size_insert_None; [reflexivity|..].
  - apply Hfresh; kind_in.
  - rewrite lookup_insert_ne by key_neq. apply Hfresh; kind_in.
  - do 2 (rewrite lookup_insert_ne by key_neq). apply Hfresh; kind_in.
  - do 3 (rewrite lookup_insert_ne by key_neq). apply Hfresh; kind_in.
Qed.

(** ** The loop of the SPAN branch *)

Lemma span_loop_spec d msg k : forall a nd nm nd' nm',
  for_each (span_block d msg) (seq a k) (nd, nm) = Ok (nd', nm') ->
  length nm' = length nm /\
  (forall j, ~ (a <= j < a + k) -> nm' !! j = nm !! j) /\
  (forall s : string,
      (forall kind b, kind ∈ seriesKinds -> a <= b < a + k -> s <> key kind b) ->
      nd' !! s = nd !! s) /\
  (forall b, a <= b < a + k -> b < length nm /\ block_done d msg nd' nm' b).
Proof.
  induction k as [|k IH]; intros a nd nm nd' nm' H; cbn in H.
  - injection H as <- <-. repeat split; try reflexivity; lia.
  - destruct (span_block d msg (nd, nm) a) as [[nd1 nm1]|] eqn:Hb; [|discriminate].
    apply span_block_Ok in Hb
      as (blk & pm & pc & mx & cma & Hblk & Hpm & Hpc & Hmx & Hcma & Hlt & -> & ->).
    apply IH in H as (Hlen & Hmeta & Hother & Hdone).
    rewrite length_insert in Hlen. split; [exact Hlen|]. split; [|split].
    + intros j Hj. rewrite Hmeta by lia. apply list_lookup_insert_ne. lia.
    + intros s Hs. rewrite Hother.
      * apply with_block_other. intros kind Hk. apply Hs; [exact Hk|lia].
      * intros kind b Hk Hb. apply Hs; [exact Hk|lia].
    + intros b Hb. destruct (decide (b = a)) as [->|Hne].
      * split; [exact Hlt|].
        destruct (with_block_lookup nd a blk mx cma) as (L1 & L2 & L3 & L4).
        exists blk, pm, pc, mx, cma. repeat split; try assumption.
        -- rewrite Hother; [exact L1|]. intros kind b Hk Hb'. key_neq.
        -- rewrite Hother; [exact L2|]. intros kind b Hk Hb'. key_neq.
        -- rewrite Hother; [exact L3|]. intros kind b Hk Hb'. key_neq.
        -- rewrite Hother; [exact L4|]. intros kind b Hk Hb'. key_neq.
        -- rewrite Hmeta by lia. apply list_lookup_insert_eq. exact Hlt.
      * destruct (Hdone b) as [Hlt' Hd]; [lia|].
        rewrite length_insert in Hlt'. split; assumption.
Qed.

Lemma span_loop_size d msg k : forall a nd nm nd' nm',
  for_each (span_block d msg) (seq a k) (nd, nm) = Ok (nd', nm') ->
  (forall kind b, kind ∈ seriesKinds -> a <= b -> nd !! key kind b = None) ->
  size nd' = 4 * k + size nd.
Proof.
  induction k as [|k IH]; intros a nd nm nd' nm' H Hfresh; cbn in H.
  - injection H as <- <-. reflexivity.
  - destruct (span_block d msg (nd, nm) a) as [[nd1 nm1]|] eqn:Hb; [|discriminate].
    apply span_block_Ok in Hb
      as (blk & pm & pc & mx & cma & _ & _ & _ & _ & _ & _ & -> & ->).
    apply IH in H.
    + rewrite H, with_block_size; [lia|]. intros kind Hk. apply Hfresh; [exact Hk|lia].
    + intros kind b Hk Hb. rewrite with_block_other; [apply Hfresh; [exact Hk|lia]|].
      intros kind' Hk'. apply key_ne; [assumption..|right; lia].
Qed.

(** ** The NumPy operations on rows of equal length *)

Lemma np_mean2_Ok r0 r1 cma :
  np_mean2 r0 r1 = Ok cma ->
  length r0 = length r1 /\ cma = zip_with (fun a b => (a + b) / 2)%Q r0 r1.
Proof.
  unfold np_mean2. destruct (decide (length r0 = length r1)) as [E|]; [|discriminate].
  intros [= <-]. split; [exact E|reflexivity].
Qed.

Lemma np_maximum_same x1 x2 :
  length x1 = length x2 -> np_maximum x1 x2 = Ok (zip_with Qmax x1 x2).
Proof. intros E. unfold np_maximum. rewrite decide_True by exact E. reflexivity. Qed.

Lemma np_maximum_mismatch x1 x2 :
  length x1 <> length x2 -> length x1 <> 1 -> length x2 <> 1 ->
  np_maximum x1 x2 = Raise ValueError.
Proof.
  intros E H1 H2. unfold np_maximum. rewrite decide_False by exact E.
  destruct x1 as [|a [|a' x1]]; destruct x2 as [|b [|b' x2]];
    cbn in *; try reflexivity; lia.
Qed.

Lemma zip_with_Qmax_lookup (xs ps : array) (i : nat) (x p : Q) :
  xs !! i = Some x -> ps !! i = Some p ->
  zip_with Qmax xs ps !! i = Some (Qmax x p).
Proof. intros Hx Hp. rewrite lookup_zip_with, Hx, Hp. reflexivity. Qed.

Lemma zip_with_Qmax_ge (xs ps : array) :
  length xs = length ps -> Forall2 Qle ps (zip_with Qmax xs ps).
Proof.
  revert ps. induction xs as [|x xs IH]; intros [|p ps] E; cbn in *;
    try discriminate; constructor.
  - apply Q.le_max_r.
  - apply IH. lia.
Qed.

Lemma zip_with_Qmax_nonneg (xs ps : array) :
  Forall (Qle 0) ps -> Forall (Qle 0) (zip_with Qmax xs ps).
Proof.
  intros Hps. revert xs. induction Hps as [|p ps Hp _ IH]; intros [|x xs]; cbn;
    constructor.
  - eapply Qle_trans; [exact Hp|apply Q.le_max_r].
  - apply IH.
Qed.

Lemma Qmax_neg_zero (x : Q) : (x < 0)%Q -> Qmax x 0 = 0%Q.
Proof.
  intros H. pose proof (proj1 (Qlt_alt x 0) H) as E.
  unfold Qmax, GenericMinMax.gmax.
  destruct (x ?= 0)%Q; first [reflexivity | discriminate E].
Qed.

(** ** The reset *)

Lemma reset_cma (s : scope) (b : nat) :
  b < self_numRfBlocks ->
  data (cmaVisibleChangeHandler true s) !! key "spectrumCMA" b = Some (np_zeros 256).
Proof.
  intros Hb. unfold self_numRfBlocks in Hb. cbn [cmaVisibleChangeHandler data range seq fold_left self_numRfBlocks].
  destruct b as [|[|b]]; [| |lia].
  - rewrite lookup_insert_ne by key_neq. apply lookup_insert_eq.
  - apply lookup_insert_eq.
Qed.

Lemma reset_other (s : scope) (k : string) :
  (forall b, k <> key "spectrumCMA" b) ->
  data (cmaVisibleChangeHandler true s) !! k = data s !! k.
Proof.
  intros Hk. cbn [cmaVisibleChangeHandler data range seq fold_left self_numRfBlocks].
  rewrite !lookup_insert_ne; [reflexivity|..]; intros E; symmetry in E;
    revert E; apply Hk.
Qed.

Lemma reset_cma_cases (s : scope) (b : nat) (l : array) :
  data (cmaVisibleChangeHandler true s) !! key "spectrumCMA" b = Some l ->
  l = np_zeros 256 \/ data s !! key "spectrumCMA" b = Some l.
Proof.
  destruct (decide (b < self_numRfBlocks)) as [Hb|Hb].
  - rewrite reset_cma by exact Hb. intros [= <-]. left. reflexivity.
  - cbn [cmaVisibleChangeHandler data range seq fold_left self_numRfBlocks].
    unfold self_numRfBlocks in Hb.
    rewrite !lookup_insert_ne by (key_neq). intros H. right. exact H.
Qed.

Lemma reset_frame (new : bool) (s : scope) :
  labels (cmaVisibleChangeHandler new s) = labels s /\
  next_tick (cmaVisibleChangeHandler new s) = next_tick s.
Proof. destruct new; split; reflexivity. Qed.

(** ** The payload of a SPAN message *)

Lemma span_payload_spec d msg nd nm :
  span_payload d msg = Ok (nd, nm) ->
  length nm = 2 /\
  numRfBlocks msg <= 2 /\
  (forall j, numRfBlocks msg <= j -> nm !! j = [PyInt self_numRfBlocks; PyNone] !! j) /\
  (forall s : string,
      (forall kind b, kind ∈ seriesKinds -> b < numRfBlocks msg -> s <> key kind b) ->
      nd !! s = None) /\
  (forall b, b < numRfBlocks msg -> block_done d msg nd nm b) /\
  size nd = 4 * numRfBlocks msg.
Proof.
  unfold span_payload, range. intros H.
  pose proof (span_loop_size _ _ _ _ _ _ _ _ H) as Hsize.
  apply span_loop_spec in H as (Hlen & Hmeta & Hother & Hdone).
  split; [exact Hlen|]. split; [|split; [|split; [|split]]].
  - destruct (numRfBlocks msg) as [|n]; [lia|].
    destruct (Hdone n) as [Hlt _]; [lia|]. cbn in Hlt. lia.
  - intros j Hj. apply Hmeta. lia.
  - intros s Hs. rewrite Hother; [apply lookup_empty|].
    intros kind b Hk Hb. apply Hs; [exact Hk|lia].
  - intros b Hb. apply Hdone. lia.
  - rewrite Hsize; [rewrite map_size_empty; lia|]. intros. apply lookup_empty.
Qed.

Lemma span_payload_keys d msg nd nm (s : string) :
  span_payload d msg = Ok (nd, nm) ->
  is_Some (nd !! s) <->
  exists kind b, kind ∈ seriesKinds /\ b < numRfBlocks msg /\ s = key kind b.
Proof.
  intros H. apply span_payload_spec in H as (_ & _ & _ & Hother & Hdone & _). split.
  - intros Hs.
    destruct (decide (Exists (fun kind =>
                Exists (fun b => s = key kind b) (seq 0 (numRfBlocks msg)))
                seriesKinds)) as [Hex|Hnex].
    + apply Exists_exists in Hex as (kind & Hk & Hex).
      apply Exists_exists in Hex as (b & Hb & ->).
      apply elem_of_seq in Hb. exists kind, b. repeat split; [exact Hk|lia].
    + exfalso. rewrite Hother in Hs; [destruct Hs; discriminate|].
      intros kind b Hk Hb ->. apply Hnex.
      apply Exists_exists. exists kind. split; [exact Hk|].
      apply Exists_exists. exists b. split; [|reflexivity].
      apply elem_of_seq. lia.
  - intros (kind & b & Hk & Hb & ->).
    destruct (Hdone b Hb)
      as (blk & pm & pc & mx & cma & _ & _ & _ & _ & _ & L1 & L2 & L3 & L4 & _).
    unfold seriesKinds in Hk.
    repeat match goal with
           | H : _ ∈ _ :: _ |- _ => apply elem_of_cons in H; destruct H as [->|H]
           | H : _ ∈ [] |- _ => apply elem_of_nil in H; destruct H
           end; eexists; eassumption.
Qed.

(** ** The SPAN callback and the publication *)

Lemma onUBXMessage_other msg msgClass s :
  msgClass <> "SPAN" -> onUBXMessage msg msgClass s = (s, Ok tt).
Proof. intros H. unfold onUBXMessage. rewrite decide_False by exact H. reflexivity. Qed.

Lemma onUBXMessage_SPAN msg s s' r :
  onUBXMessage msg "SPAN" s = (s', r) ->
  (exists e, span_payload (data s) msg = Raise e /\ s' = s /\ r = Raise e) \/
  (exists nd nm, span_payload (data s) msg = Ok (nd, nm) /\ r = Ok tt /\
     s' = {| data := data s; labels := labels s;
             next_tick := next_tick s ++
               [{| cb_spectrumData := nd; cb_spectrumMetaData := nm |}] |}).
Proof.
  unfold onUBXMessage. rewrite decide_True by reflexivity.
  destruct (span_payload (data s) msg) as [[nd nm]|e]; intros [= <- <-].
  - right. exists nd, nm. repeat split.
  - left. exists e. repeat split.
Qed.

Lemma update_labels_Ok meta : forall lbls index lbls',
  update_labels lbls index meta = (lbls', Ok tt) ->
  forall j o, meta !! j = Some o -> exists g, o = PyDict g.
Proof.
  induction meta as [|o meta IH]; intros lbls index lbls' H j o' Hj.
  - rewrite lookup_nil in Hj. discriminate.
  - cbn in H. destruct o as [n| |g]; try discriminate.
    destruct (decide (index < length lbls)); [|discriminate].
    destruct j as [|j]; cbn in Hj.
    + injection Hj as <-. exists g. reflexivity.
    + eapply IH; eassumption.
Qed.

Lemma update_cases msg s s' r :
  next_tick s = [] ->
  update msg s = (s', r) ->
  (exists e, span_payload (data s) msg = Raise e /\ s' = s /\ r = Raise e) \/
  (exists nd nm, span_payload (data s) msg = Ok (nd, nm) /\
     s' = {| data := nd;
             labels := (update_labels (labels s) 0 nm).1;
             next_tick := [] |} /\
     r = (update_labels (labels s) 0 nm).2).
Proof.
  intros Hq. unfold update.
  destruct (onUBXMessage msg "SPAN" s) as [s1 r1] eqn:Hm.
  apply onUBXMessage_SPAN in Hm as [(e & He & -> & ->)|(nd & nm & Hp & -> & ->)].
  - intros [= <- <-]. left. exists e. repeat split. exact He.
  - rewrite Hq. cbn. unfold updateSpectrumPlot. cbn.
    destruct (update_labels (labels s) 0 nm) as [lbls r2] eqn:Hl.
    intros [= <- <-]. right. exists nd, nm. rewrite Hl. repeat split. exact Hp.
Qed.

(** A successful update: the snapshot had exactly the two tracked blocks. *)
Lemma update_Ok msg s s' :
  next_tick s = [] ->
  update msg s = (s', Ok tt) ->
  numRfBlocks msg = 2 /\ next_tick s' = [] /\
  exists nm, span_payload (data s) msg = Ok (data s', nm).
Proof.
  intros Hq H. apply update_cases in H as [(e & _ & _ & [=])|(nd & nm & Hp & -> & Hr)];
    [|exact Hq].
  pose proof Hp as Hspec.
  apply span_payload_spec in Hspec as (Hlen & Hle & Hmeta & _).
  destruct (update_labels (labels s) 0 nm) as [lbls r] eqn:Hl. cbn in Hr. subst r.
  split; [|split; [reflexivity|exists nm; exact Hp]].
  destruct (decide (numRfBlocks msg = 2)) as [E|Hne]; [exact E|exfalso].
  assert (Hj : nm !! 1 = Some PyNone).
  { rewrite Hmeta by lia. reflexivity. }
  destruct (update_labels_Ok _ _ _ _ Hl _ _ Hj) as [g [=]].
Qed.

(** ** Invariant of the stored series *)

Lemma np_zeros_ok (n : nat) :
  length (np_zeros n) = n /\ Forall (Qle 0) (np_zeros n).
Proof.
  unfold np_zeros. split; [apply length_replicate|].
  apply Forall_replicate. apply Qle_refl.
Qed.

Lemma init_lookup (k : string) (l : array) :
  data init !! k = Some l -> l = np_zeros SPAN_BIN_COUNT.
Proof.
  unfold init, range, self_numRfBlocks. cbn [data fold_left seq]. unfold init_block.
  repeat (rewrite lookup_insert; case_decide; [intros [= <-]; reflexivity|]).
  rewrite lookup_empty. discriminate.
Qed.

Lemma init_maxima (b : nat) :
  b < 2 -> data init !! key "spectrumMaxima" b = Some (np_zeros SPAN_BIN_COUNT).
Proof.
  intros Hb. unfold init, range, self_numRfBlocks. cbn [data fold_left seq].
  unfold init_block. destruct b as [|[|b]]; [| |lia].
  - do 5 (rewrite lookup_insert_ne by key_neq). rewrite lookup_insert_ne by key_neq.
    apply lookup_insert_eq.
  - do 2 (rewrite lookup_insert_ne by key_neq). apply lookup_insert_eq.
Qed.

Lemma init_cma (b : nat) :
  b < 2 -> data init !! key "spectrumCMA" b = Some (np_zeros SPAN_BIN_COUNT).
Proof.
  intros Hb. unfold init, range, self_numRfBlocks. cbn [data fold_left seq].
  unfold init_block. destruct b as [|[|b]]; [| |lia].
  - do 5 (rewrite lookup_insert_ne by key_neq). apply lookup_insert_eq.
  - rewrite lookup_insert_ne by key_neq. apply lookup_insert_eq.
Qed.

Lemma init_ok : scope_ok init.
Proof.
  split; [|constructor]. intros b l. split; intros H; apply init_lookup in H as ->.
  - apply np_zeros_ok.
  - apply np_zeros_ok.
Qed.

(** What a block of a payload holds when the stored series obey the
    invariant: nothing is broadcast, the snapshot has [SPAN_BIN_COUNT] bins. *)
Lemma block_done_ok d msg nd nm b :
  data_ok d -> block_done d msg nd nm b ->
  exists blk pm pc,
    spectra msg !! b = Some blk /\
    d !! key "spectrumMaxima" b = Some pm /\
    d !! key "spectrumCMA" b = Some pc /\
    length (spectrum blk) = SPAN_BIN_COUNT /\
    length pm = SPAN_BIN_COUNT /\ length pc = SPAN_BIN_COUNT /\
    Forall (Qle 0) pm /\
    nd !! key "spectrum" b = Some (spectrum blk) /\
    nd !! key "spectrumMaxima" b = Some (zip_with Qmax (spectrum blk) pm) /\
    nd !! key "spectrumCMA" b
      = Some (zip_with (fun c p => (c + p) / 2)%Q (spectrum blk) pc).
Proof.
  intros Hd (blk & pm & pc & mx & cma & Hblk & Hpm & Hpc & Hmx & Hcma & _ & L2 & L3 & L4 & _).
  destruct (proj1 (Hd b pm) Hpm) as [Hlm Hnn].
  pose proof (proj2 (Hd b pc) Hpc) as Hlc.
  apply np_mean2_Ok in Hcma as [Hl ->].
  rewrite np_maximum_same in Hmx by congruence. injection Hmx as <-.
  exists blk, pm, pc. repeat split; try assumption. congruence.
Qed.

Lemma payload_ok d msg nd nm :
  data_ok d -> span_payload d msg = Ok (nd, nm) -> data_ok nd.
Proof.
  intros Hd Hp b l.
  assert (Hin : forall kind, kind ∈ seriesKinds -> is_Some (nd !! key kind b) ->
                b < numRfBlocks msg).
  { intros kind Hk Hs. apply (span_payload_keys _ _ _ _ _ Hp) in Hs
      as (kind' & b' & Hk' & Hb' & E).
    apply key_inj in E as [_ ->]; assumption. }
  pose proof Hp as Hspec. apply span_payload_spec in Hspec as (_ & _ & _ & _ & Hdone & _).
  split; intros Hl.
  - assert (Hb : b < numRfBlocks msg) by (apply (Hin "spectrumMaxima"); [kind_in|eauto]).
    destruct (block_done_ok _ _ _ _ _ Hd (Hdone b Hb))
      as (blk & pm & pc & _ & _ & _ & Hls & Hlm & _ & Hnn & _ & L3 & _).
    rewrite L3 in Hl. injection Hl as <-. split.
    + rewrite length_zip_with. lia.
    + apply zip_with_Qmax_nonneg. exact Hnn.
  - assert (Hb : b < numRfBlocks msg) by (apply (Hin "spectrumCMA"); [kind_in|eauto]).
    destruct (block_done_ok _ _ _ _ _ Hd (Hdone b Hb))
      as (blk & pm & pc & _ & _ & _ & Hls & _ & Hlc & _ & _ & _ & L4).
    rewrite L4 in Hl. injection Hl as <-. rewrite length_zip_with. lia.
Qed.

Lemma reset_data_ok (new : bool) (s : scope) :
  data_ok (data s) -> data_ok (data (cmaVisibleChangeHandler new s)).
Proof.
  destruct new; [|trivial]. intros Hd b l. split; intros Hl.
  - rewrite reset_other in Hl by (intros b'; key_neq). apply (Hd b l). exact Hl.
  - apply reset_cma_cases in Hl as [->|Hl]; [apply np_zeros_ok|apply (Hd b l); exact Hl].
Qed.

Lemma reachable_ok (s : scope) : reachable s -> scope_ok s.
Proof.
  induction 1 as [|s msg msgClass s' r _ [Hd Hq] Hm|s s' r _ [Hd Hq] Ht|s new _ [Hd Hq]].
  - apply init_ok.
  - destruct (decide (msgClass = "SPAN")) as [->|Hne].
    + apply onUBXMessage_SPAN in Hm as [(e & _ & -> & _)|(nd & nm & Hp & _ & ->)].
      * split; assumption.
      * split; [exact Hd|]. cbn. apply Forall_app. split; [exact Hq|].
        constructor; [|constructor]. cbn. eapply payload_ok; eassumption.
    + rewrite onUBXMessage_other in Hm by exact Hne. injection Hm as <- _.
      split; assumption.
  - unfold run_next_tick in Ht. destruct (next_tick s) as [|cb rest] eqn:Hn.
    + injection Ht as <- _. split; [exact Hd|]. rewrite Hn. constructor.
    + unfold updateSpectrumPlot in Ht. cbn in Ht.
      destruct (update_labels (labels s) 0 (cb_spectrumMetaData cb)) as [lbls r'].
      injection Ht as <- _. inversion Hq; subst. split; assumption.
  - split; [apply reset_data_ok; exact Hd|].
    rewrite (proj2 (reset_frame new s)). exact Hq.
Qed.

(** ** Sequences of updates and resets *)

Lemma update_reachable msg s s' r :
  reachable s -> update msg s = (s', r) -> reachable s'.
Proof.
  intros Hs. unfold update.
  destruct (onUBXMessage msg "SPAN" s) as [s1 [[]|e]] eqn:Hm.
  - intros Ht. eapply reach_tick; [|exact Ht]. eapply reach_message; eassumption.
  - intros [= <- _]. eapply reach_message; eassumption.
Qed.

Lemma update_quiescent msg s s' r :
  next_tick s = [] -> update msg s = (s', r) -> next_tick s' = [].
Proof.
  intros Hq H.
  apply update_cases in H as [(e & _ & -> & _)|(nd & nm & _ & -> & _)];
    [exact Hq|reflexivity|exact Hq].
Qed.

Lemma apply_op_reachable o s s' r :
  reachable s -> apply_op o s = (s', r) -> reachable s'.
Proof.
  destruct o as [msg|new]; cbn; intros Hs H.
  - eapply update_reachable; eassumption.
  - injection H as <- _. apply reach_reset. exact Hs.
Qed.

Lemma apply_op_quiescent o s s' r :
  next_tick s = [] -> apply_op o s = (s', r) -> next_tick s' = [].
Proof.
  destruct o as [msg|new]; cbn; intros Hq H.
  - eapply update_quiescent; eassumption.
  - injection H as <- _. rewrite (proj2 (reset_frame new s)). exact Hq.
Qed.

Lemma run_reachable ops : forall s s' r,
  reachable s -> next_tick s = [] -> run ops s = (s', r) ->
  reachable s' /\ next_tick s' = [].
Proof.
  induction ops as [|o ops IH]; intros s s' r Hs Hq H; cbn in H.
  - injection H as <- _. split; assumption.
  - destruct (apply_op o s) as [s1 [[]|e]] eqn:Ho.
    + eapply IH; [| |exact H].
      * eapply apply_op_reachable; eassumption.
      * eapply apply_op_quiescent; eassumption.
    + injection H as <- _. split.
      * eapply apply_op_reachable; eassumption.
      * eapply apply_op_quiescent; eassumption.
Qed.

Lemma run_snoc ops o : forall s s',
  run (ops ++ [o]) s = (s', Ok tt) ->
  exists s1, run ops s = (s1, Ok tt) /\ apply_op o s1 = (s', Ok tt).
Proof.
  induction ops as [|o' ops IH]; intros s s' H; cbn in H.
  - exists s. split; [reflexivity|].
    destruct (apply_op o s) as [s1 [[]|e]]; [|discriminate].
    injection H as <-. reflexivity.
  - destruct (apply_op o' s) as [s1 [[]|e]] eqn:Ho; [|discriminate].
    apply IH in H as (s2 & Hr & Ha). exists s2. split; [|exact Ha].
    cbn. rewrite Ho. exact Hr.
Qed.

(** A successful update of a reachable quiescent state, block by block. *)
Lemma update_block msg s s' b :
  reachable s -> next_tick s = [] -> update msg s = (s', Ok tt) ->
  b < numRfBlocks msg ->
  exists blk pm pc,
    spectra msg !! b = Some blk /\
    data s !! key "spectrumMaxima" b = Some pm /\
    data s !! key "spectrumCMA" b = Some pc /\
    length (spectrum blk) = SPAN_BIN_COUNT /\
    length pm = SPAN_BIN_COUNT /\ length pc = SPAN_BIN_COUNT /\
    Forall (Qle 0) pm /\
    data s' !! key "spectrum" b = Some (spectrum blk) /\
    data s' !! key "spectrumMaxima" b = Some (zip_with Qmax (spectrum blk) pm) /\
    data s' !! key "spectrumCMA" b
      = Some (zip_with (fun c p => (c + p) / 2)%Q (spectrum blk) pc).
Proof.
  intros Hs Hq H Hb. apply update_Ok in H as (_ & _ & nm & Hp); [|exact Hq].
  pose proof Hp as Hspec. apply span_payload_spec in Hspec as (_ & _ & _ & _ & Hdone & _).
  eapply block_done_ok; [apply reachable_ok; exact Hs|apply Hdone; exact Hb].
Qed.

Lemma running_max_snoc_update ops m b i :
  running_max (ops ++ [Update m]) b i = Qmax (bin_value m b i) (running_max ops b i).
Proof. unfold running_max, updates. rewrite omap_app, fold_left_app. reflexivity. Qed.

Lemma running_max_snoc_reset ops new b i :
  running_max (ops ++ [Reset new]) b i = running_max ops b i.
Proof. unfold running_max, updates. rewrite omap_app, fold_left_app. reflexivity. Qed.

Lemma bin_value_lookup m b i blk x :
  spectra m !! b = Some blk -> spectrum blk !! i = Some x -> bin_value m b i = x.
Proof. intros Hb Hx. unfold bin_value. rewrite Hb. cbn. rewrite Hx. reflexivity. Qed.

Lemma run_maxima ops : forall s b,
  run ops init = (s, Ok tt) -> b < 2 ->
  exists mx, data s !! key "spectrumMaxima" b = Some mx /\
             length mx = SPAN_BIN_COUNT /\
             forall i, i < SPAN_BIN_COUNT -> mx !! i = Some (running_max ops b i).
Proof.
  induction ops as [|o ops IH] using rev_ind; intros s b H Hb.
  - injection H as <-. exists (np_zeros SPAN_BIN_COUNT).
    split; [apply init_maxima; exact Hb|]. split; [apply np_zeros_ok|].
    intros i Hi. unfold np_zeros. rewrite lookup_replicate_2 by exact Hi. reflexivity.
  - apply run_snoc in H as (s1 & Hr & Ha).
    destruct (IH _ _ Hr Hb) as (mx1 & Hmx1 & Hlen1 & Hval1).
    destruct (run_reachable _ _ _ _ reach_init eq_refl Hr) as [Hs1 Hq1].
    destruct o as [msg|new]; cbn in Ha.
    + pose proof (update_Ok _ _ _ Hq1 Ha) as (Hn & _).
      destruct (update_block _ _ _ b Hs1 Hq1 Ha)
        as (blk & pm & pc & Hblk & Hpm & _ & Hls & Hlm & _ & _ & _ & L3 & _); [lia|].
      rewrite Hmx1 in Hpm. injection Hpm as <-.
      exists (zip_with Qmax (spectrum blk) mx1). split; [exact L3|].
      split; [rewrite length_zip_with; lia|]. intros i Hi.
      destruct (lookup_lt_is_Some_2 (spectrum blk) i) as [x Hx]; [lia|].
      rewrite (zip_with_Qmax_lookup _ _ _ _ _ Hx (Hval1 i Hi)).
      rewrite running_max_snoc_update, (bin_value_lookup _ _ _ _ _ Hblk Hx). reflexivity.
    + injection Ha as <-. exists mx1. split; [|split; [exact Hlen1|]].
      * destruct new; [|exact Hmx1].
        rewrite reset_other by (intros b'; key_neq). exact Hmx1.
      * intros i Hi. rewrite running_max_snoc_reset. apply Hval1. exact Hi.
Qed.

Lemma step_maxima_monotone o s s' b pm :
  reachable s -> next_tick s = [] -> apply_op o s = (s', Ok tt) -> b < 2 ->
  data s !! key "spectrumMaxima" b = Some pm ->
  exists mx, data s' !! key "spectrumMaxima" b = Some mx /\ Forall2 Qle pm mx.
Proof.
  intros Hs Hq Ha Hb Hpm. destruct o as [msg|new]; cbn in Ha.
  - pose proof (update_Ok _ _ _ Hq Ha) as (Hn & _).
    destruct (update_block _ _ _ b Hs Hq Ha)
      as (blk & pm' & pc & _ & Hpm' & _ & Hls & Hlm & _ & _ & _ & L3 & _); [lia|].
    rewrite Hpm in Hpm'. injection Hpm' as <-.
    exists (zip_with Qmax (spectrum blk) pm). split; [exact L3|].
    apply zip_with_Qmax_ge. congruence.
  - injection Ha as <-. exists pm. split.
    + destruct new; [|exact Hpm]. rewrite reset_other by (intros b'; key_neq). exact Hpm.
    + apply Forall_Forall2_diag, Forall_forall. intros x _. apply Qle_refl.
Qed.

(** ** Claims *)

(** C1, counterexample: a snapshot of 10 dB, a reset, a snapshot of 5 dB.
    The running maximum is still 10, the largest value since the reset is 5:
    the reset handler does not touch the maximum series. *)
Lemma max_since_last_reset_counterexample : ~ max_since_last_reset_claim.
Proof.
  intros claim.
  destruct (claim [Update (flat_span 2 256 10); Reset true; Update (flat_span 2 256 5)]
                  (run [Update (flat_span 2 256 10); Reset true;
                        Update (flat_span 2 256 5)] init).1
                  0 0 (replicate 256 10%Q) 5%Q)
    as (x & Hx & Hv).
  - vm_compute. reflexivity.
  - lia.
  - unfold SPAN_BIN_COUNT. lia.
  - vm_compute. reflexivity.
  - vm_compute. reflexivity.
  - cbn in Hx. injection Hx as <-. vm_compute in Hv. discriminate Hv.
Qed.

(** C1 (amended): over any successful sequence of updates and resets from
    the initial state, the running maximum of every bin of the two tracked
    blocks is the largest of zero (the initial series) and of the values of
    that bin in all snapshots since initialisation, resets included; and any
    further update or reset leaves it where it is or raises it. *)
Theorem running_max_since_init (ops : list op) (s : scope) (b : nat)
    (Hrun : run ops init = (s, Ok tt)) (Hb : b < 2) :
  exists mx,
    data s !! key "spectrumMaxima" b = Some mx /\
    length mx = SPAN_BIN_COUNT /\
    (forall i, i < SPAN_BIN_COUNT -> mx !! i = Some (running_max ops b i)) /\
    (forall o s', apply_op o s = (s', Ok tt) ->
       exists mx', data s' !! key "spectrumMaxima" b = Some mx' /\ Forall2 Qle mx mx').
Proof.
  destruct (run_maxima _ _ _ Hrun Hb) as (mx & Hmx & Hlen & Hval).
  exists mx. repeat split; try assumption.
  intros o s' Ha.
  destruct (run_reachable _ _ _ _ reach_init eq_refl Hrun) as [Hs Hq].
  eapply step_maxima_monotone; eassumption.
Qed.

Lemma running_max_since_init_witness :
  exists mx,
    data (run [Update (flat_span 2 256 10); Reset true] init).1
      !! key "spectrumMaxima" 1 = Some mx /\
    length mx = SPAN_BIN_COUNT /\
    (forall i, i < SPAN_BIN_COUNT ->
       mx !! i = Some (running_max [Update (flat_span 2 256 10); Reset true] 1 i)) /\
    (forall o s',
       apply_op o (run [Update (flat_span 2 256 10); Reset true] init).1 = (s', Ok tt) ->
       exists mx', data s' !! key "spectrumMaxima" 1 = Some mx' /\ Forall2 Qle mx mx').
Proof.
  apply (running_max_since_init [Update (flat_span 2 256 10); Reset true]).
  - vm_compute. reflexivity.
  - lia.
Defined.

Lemma mean_with_zeros (cur : array) (n : nat) :
  length cur = n ->
  Forall2 Qeq (zip_with (fun c p => (c + p) / 2)%Q cur (np_zeros n))
              ((fun c => c / 2)%Q <$> cur).
Proof.
  intros <-. unfold np_zeros. induction cur as [|c cur IH]; cbn; constructor.
  - rewrite Qplus_0_r. reflexivity.
  - exact IH.
Qed.

(** C2, counterexample: after a snapshot of 10 dB the reset leaves the
    running maximum of block 0 at 10 in every bin. *)
Lemma reset_zeroes_both_counterexample : ~ reset_zeroes_both_claim.
Proof.
  intros claim.
  destruct (claim (update (flat_span 2 256 10) init).1 0) as (Hmax & _).
  - eapply update_reachable; [apply reach_init|]. apply surjective_pairing.
  - vm_compute. reflexivity.
  - lia.
  - specialize (Hmax (replicate 256 10%Q)).
    vm_compute in Hmax. specialize (Hmax eq_refl). discriminate Hmax.
Qed.

(** C2 (amended): the reset makes the running mean of both tracked blocks
    an all-zero series of 256 bins, the bin count every stored running mean
    has; it leaves the current series and the running maximum as they are;
    the next update then gives running mean = current / 2 and running
    maximum = the larger of current and the maximum from before the reset. *)
Theorem reset_zeroes_running_mean (s : scope) (b : nat)
    (Hs : reachable s) (Hq : next_tick s = []) (Hb : b < 2) :
  data (reset s) !! key "spectrumCMA" b = Some (np_zeros 256) /\
  (forall pc, data s !! key "spectrumCMA" b = Some pc -> length pc = 256) /\
  data (reset s) !! key "spectrumMaxima" b = data s !! key "spectrumMaxima" b /\
  data (reset s) !! key "spectrum" b = data s !! key "spectrum" b /\
  (forall msg s' blk,
     update msg (reset s) = (s', Ok tt) -> spectra msg !! b = Some blk ->
     (exists cma, data s' !! key "spectrumCMA" b = Some cma /\
                  Forall2 Qeq cma ((fun c => c / 2)%Q <$> spectrum blk)) /\
     (exists pm, data s !! key "spectrumMaxima" b = Some pm /\
                 data s' !! key "spectrumMaxima" b
                   = Some (zip_with Qmax (spectrum blk) pm))).
Proof.
  unfold reset.
  assert (Hmax : data (cmaVisibleChangeHandler true s) !! key "spectrumMaxima" b
                 = data s !! key "spectrumMaxima" b)
    by (apply reset_other; intros b'; key_neq).
  split; [apply reset_cma; exact Hb|]. split; [|split; [exact Hmax|split]].
  - intros pc Hpc. apply (proj1 (reachable_ok s Hs) b pc). exact Hpc.
  - apply reset_other. intros b'. key_neq.
  - intros msg s' blk Hu Hblk.
    pose proof (reach_reset s true Hs) as Hs'.
    assert (Hq' : next_tick (cmaVisibleChangeHandler true s) = [])
      by (rewrite (proj2 (reset_frame true s)); exact Hq).
    pose proof (update_Ok _ _ _ Hq' Hu) as (Hn & _).
    destruct (update_block _ _ _ b Hs' Hq' Hu)
      as (blk' & pm & pc & Hblk' & Hpm & Hpc & Hls & _ & _ & _ & _ & L3 & L4); [lia|].
    rewrite Hblk in Hblk'. injection Hblk' as <-.
    rewrite reset_cma in Hpc by exact Hb. injection Hpc as <-. split.
    + eexists. split; [exact L4|]. apply mean_with_zeros. exact Hls.
    + exists pm. split; [rewrite <- Hmax; exact Hpm|exact L3].
Qed.

Lemma reset_zeroes_running_mean_witness :
  data (reset (update (flat_span 2 256 10) init).1) !! key "spectrumCMA" 0
  = Some (np_zeros 256).
Proof.
  refine (proj1 (reset_zeroes_running_mean (update (flat_span 2 256 10) init).1 0 _ _ _)).
  - eapply update_reachable; [apply reach_init|]. apply surjective_pairing.
  - vm_compute. reflexivity.
  - lia.
Defined.

(** C3: an update that returns stores, for every block of the snapshot, the
    elementwise average of the current series and the running mean held
    before, [(current + previous) / 2]; after the snapshots 10 and 20 this is
    12.5, not their arithmetic mean 15. *)
Theorem cma_two_term_average (msg : ubx_msg) (s s' : scope) (b : nat)
    (Hq : next_tick s = []) (Hu : update msg s = (s', Ok tt))
    (Hb : b < numRfBlocks msg) :
  (exists blk pc,
     spectra msg !! b = Some blk /\
     data s !! key "spectrumCMA" b = Some pc /\
     length (spectrum blk) = length pc /\
     data s' !! key "spectrumCMA" b
       = Some (zip_with (fun c p => (c + p) / 2)%Q (spectrum blk) pc)) /\
  (exists cma x,
     data (run [Update (flat_span 2 256 10); Update (flat_span 2 256 20)] init).1
       !! key "spectrumCMA" 0 = Some cma /\
     cma !! 0 = Some x /\ (x == 25 / 2)%Q /\ ~ (x == true_mean [10; 20])%Q).
Proof.
  split.
  - apply update_Ok in Hu as (_ & _ & nm & Hp); [|exact Hq].
    apply span_payload_spec in Hp as (_ & _ & _ & _ & Hdone & _).
    destruct (Hdone b Hb)
      as (blk & pm & pc & mx & cma & Hblk & _ & Hpc & _ & Hcma & _ & _ & _ & L4 & _).
    apply np_mean2_Ok in Hcma as [Hl ->]. exists blk, pc. repeat split; assumption.
  - eexists _, _. split; [vm_compute; reflexivity|].
    split; [reflexivity|]. split; [vm_compute; reflexivity|].
    vm_compute. discriminate.
Qed.

Lemma cma_two_term_average_witness :
  exists blk pc,
    spectra (flat_span 2 256 10) !! 1 = Some blk /\
    data init !! key "spectrumCMA" 1 = Some pc /\
    length (spectrum blk) = length pc /\
    data (update (flat_span 2 256 10) init).1 !! key "spectrumCMA" 1
      = Some (zip_with (fun c p => (c + p) / 2)%Q (spectrum blk) pc).
Proof.
  refine (proj1 (cma_two_term_average (flat_span 2 256 10) init _ 1 _ _ _)).
  - reflexivity.
  - vm_compute. reflexivity.
  - cbn. lia.
Defined.

(** C4, counterexample: a snapshot of 256 bins, then one of 4 bins; the
    second update raises [ValueError] in [np.maximum]. *)
Lemma rebaseline_counterexample : ~ rebaseline_claim.
Proof.
  intros claim.
  destruct (claim (update (flat_span 2 256 10) init).1 (flat_span 2 4 10) 0
                  (flat_block 4 10) (replicate 256 10%Q))
    as (s' & Hu & _).
  - eapply update_reachable; [apply reach_init|]. apply surjective_pairing.
  - vm_compute. reflexivity.
  - cbn. lia.
  - reflexivity.
  - vm_compute. reflexivity.
  - vm_compute. discriminate.
  - vm_compute in Hu. discriminate Hu.
Qed.

(** C4 (amended): when the bin count of a block of the snapshot differs
    from that of the stored running maximum and running mean of that block,
    the update raises an exception and leaves the state as it was: nothing is
    resized or re-baselined. *)
Theorem bin_count_change_raises (s : scope) (msg : ubx_msg) (b : nat)
    (blk : spectrum_block) (pm pc : array)
    (Hb : b < numRfBlocks msg) (Hblk : spectra msg !! b = Some blk)
    (Hpm : data s !! key "spectrumMaxima" b = Some pm)
    (Hpc : data s !! key "spectrumCMA" b = Some pc)
    (Hsame : length pm = length pc)
    (Hchange : length (spectrum blk) <> length pm) :
  exists e, update msg s = (s, Raise e).
Proof.
  unfold update. destruct (onUBXMessage msg "SPAN" s) as [s1 r] eqn:Hm.
  apply onUBXMessage_SPAN in Hm as [(e & _ & -> & ->)|(nd & nm & Hp & _ & _)].
  - exists e. reflexivity.
  - exfalso. apply span_payload_spec in Hp as (_ & _ & _ & _ & Hdone & _).
    destruct (Hdone b Hb)
      as (blk' & pm' & pc' & mx & cma & Hblk' & _ & Hpc' & _ & Hcma & _).
    rewrite Hblk in Hblk'. injection Hblk' as <-.
    rewrite Hpc in Hpc'. injection Hpc' as <-.
    apply np_mean2_Ok in Hcma as [Hl _]. congruence.
Qed.

Lemma bin_count_change_raises_witness :
  exists e, update (flat_span 2 4 10) init = (init, Raise e).
Proof.
  apply (bin_count_change_raises init (flat_span 2 4 10) 0 (flat_block 4 10)
           (np_zeros 256) (np_zeros 256)).
  - cbn. lia.
  - reflexivity.
  - vm_compute. reflexivity.
  - vm_compute. reflexivity.
  - reflexivity.
  - vm_compute. discriminate.
Defined.

(** C5: every update of a quiescent scope that returns has published a
    payload of exactly [4 * N_blocks] keys for the [N_blocks = 2] tracked
    blocks: the snapshot had the two tracked RF blocks, the payload the
    callback computed is what the data source then holds, and its keys are
    exactly the names [<seriesKind>_<blockIndex>] for the four series kinds
    and the block indices below [N_blocks], none missing and none extra. *)
Theorem payload_keys (msg : ubx_msg) (s s' : scope)
    (Hq : next_tick s = []) (Hu : update msg s = (s', Ok tt)) :
  numRfBlocks msg = self_numRfBlocks /\
  exists payload nm,
    span_payload (data s) msg = Ok (payload, nm) /\
    data s' = payload /\
    size payload = 4 * self_numRfBlocks /\
    (forall k : string,
       is_Some (payload !! k) <->
       exists kind b, kind ∈ seriesKinds /\ b < self_numRfBlocks /\ k = key kind b).
Proof.
  apply update_Ok in Hu as (Hn & _ & nm & Hp); [|exact Hq].
  split; [exact Hn|]. exists (data s'), nm.
  split; [exact Hp|]. split; [reflexivity|].
  pose proof (span_payload_spec _ _ _ _ Hp) as (_ & _ & _ & _ & _ & Hsize).
  split; [rewrite Hsize, Hn; reflexivity|].
  intros k. rewrite (span_payload_keys _ _ _ _ k Hp), Hn. reflexivity.
Qed.

Lemma payload_keys_witness :
  numRfBlocks (flat_span 2 256 10) = self_numRfBlocks /\
  exists payload nm,
    span_payload (data init) (flat_span 2 256 10) = Ok (payload, nm) /\
    data (update (flat_span 2 256 10) init).1 = payload /\
    size payload = 4 * self_numRfBlocks /\
    (forall k : string,
       is_Some (payload !! k) <->
       exists kind b, kind ∈ seriesKinds /\ b < self_numRfBlocks /\ k = key kind b).
Proof.
  apply (payload_keys (flat_span 2 256 10) init).
  - reflexivity.
  - vm_compute. reflexivity.
Defined.

(** C6, counterexample: the zero baseline of the program has 256 bins, and
    the update with the four-bin snapshot [10,20,30,40] raises [ValueError]
    in [np.maximum]. *)
Lemma four_bin_example_counterexample : ~ four_bin_example_claim.
Proof.
  intros (s1 & s2 & H1 & _). vm_compute in H1. discriminate H1.
Qed.

(** C6 (amended): from the initial state, whose zero baseline has 256
    bins, two updates that return with snapshots whose first four power
    values of a tracked block are [10,20,30,40] and then [15,5,35,10] give in
    these four bins of the block max [10,20,30,40], mean [5,10,15,20] after
    the first and max [15,20,35,40], mean [10,7.5,25,15] after the second. *)
Theorem example_two_snapshots (m1 m2 : ubx_msg) (s1 s2 : scope) (b : nat)
    (blk1 blk2 : spectrum_block)
    (Hb : b < 2)
    (Hblk1 : spectra m1 !! b = Some blk1)
    (Hblk2 : spectra m2 !! b = Some blk2)
    (Hv1 : take 4 (spectrum blk1) = [10; 20; 30; 40]%Q)
    (Hv2 : take 4 (spectrum blk2) = [15; 5; 35; 10]%Q)
    (H1 : update m1 init = (s1, Ok tt))
    (H2 : update m2 s1 = (s2, Ok tt)) :
  take 4 <$> data s1 !! key "spectrumMaxima" b = Some [10; 20; 30; 40]%Q /\
  (exists mean1, take 4 <$> data s1 !! key "spectrumCMA" b = Some mean1 /\
                 Forall2 Qeq mean1 [5; 10; 15; 20]%Q) /\
  take 4 <$> data s2 !! key "spectrumMaxima" b = Some [15; 20; 35; 40]%Q /\
  (exists mean2, take 4 <$> data s2 !! key "spectrumCMA" b = Some mean2 /\
                 Forall2 Qeq mean2 [10; 15 # 2; 25; 15]%Q).
Proof.
  pose proof (update_Ok m1 init s1 eq_refl H1) as (Hn1 & Hq1 & _).
  pose proof (update_reachable _ _ _ _ reach_init H1) as Hs1.
  pose proof (update_Ok _ _ _ Hq1 H2) as (Hn2 & _).
  destruct (update_block _ _ _ b reach_init eq_refl H1)
    as (blk & pm & pc & Hblk & Hpm & Hpc & _ & _ & _ & _ & _ & M1 & C1); [lia|].
  rewrite Hblk1 in Hblk. injection Hblk as <-.
  rewrite init_maxima in Hpm by exact Hb. injection Hpm as <-.
  rewrite init_cma in Hpc by exact Hb. injection Hpc as <-.
  destruct (update_block _ _ _ b Hs1 Hq1 H2)
    as (blk & pm & pc & Hblk & Hpm & Hpc & _ & _ & _ & _ & _ & M2 & C2); [lia|].
  rewrite Hblk2 in Hblk. injection Hblk as <-.
  rewrite M1 in Hpm. injection Hpm as <-. rewrite C1 in Hpc. injection Hpc as <-.
  assert (Hz : take 4 (np_zeros SPAN_BIN_COUNT) = [0; 0; 0; 0]%Q) by reflexivity.
  rewrite M1, C1, M2, C2. cbn [fmap option_fmap option_map].
  rewrite !zip_with_take, Hv1, Hv2, Hz.
  split; [vm_compute; reflexivity|].
  split; [eexists; split; [reflexivity|]; vm_compute; repeat constructor|].
  split; [vm_compute; reflexivity|].
  eexists; split; [reflexivity|]; vm_compute; repeat constructor.
Qed.

Lemma example_two_snapshots_witness :
  take 4 <$> data (update (span_of (padded [10; 20; 30; 40]%Q)) init).1
               !! key "spectrumMaxima" 1 = Some [10; 20; 30; 40]%Q /\
  (exists mean1,
     take 4 <$> data (update (span_of (padded [10; 20; 30; 40]%Q)) init).1
                  !! key "spectrumCMA" 1 = Some mean1 /\
     Forall2 Qeq mean1 [5; 10; 15; 20]%Q) /\
  take 4 <$> data (update (span_of (padded [15; 5; 35; 10]%Q))
                     (update (span_of (padded [10; 20; 30; 40]%Q)) init).1).1
               !! key "spectrumMaxima" 1 = Some [15; 20; 35; 40]%Q /\
  (exists mean2,
     take 4 <$> data (update (span_of (padded [15; 5; 35; 10]%Q))
                        (update (span_of (padded [10; 20; 30; 40]%Q)) init).1).1
                  !! key "spectrumCMA" 1 = Some mean2 /\
     Forall2 Qeq mean2 [10; 15 # 2; 25; 15]%Q).
Proof.
  apply (example_two_snapshots
           (span_of (padded [10; 20; 30; 40]%Q)) (span_of (padded [15; 5; 35; 10]%Q))
           _ _ 1
           (Build_spectrum_block (np_zeros 256) (padded [10; 20; 30; 40]%Q) 0)
           (Build_spectrum_block (np_zeros 256) (padded [15; 5; 35; 10]%Q) 0)).
  - lia.
  - reflexivity.
  - reflexivity.
  - reflexivity.
  - reflexivity.
  - vm_compute. reflexivity.
  - vm_compute. reflexivity.
Defined.

(** C7: reports of the message source that are not SPAN messages (decode
    errors, NMEA sentences, PVT and all other UBX messages) leave the scope
    exactly as it was: no aggregation, nothing scheduled for the render
    sink, no exception. *)
Theorem non_span_discarded (evs : list event) (s : scope)
    (Hevs : Forall (fun ev => is_SPAN ev = false) evs) :
  feed evs s = (s, Ok tt).
Proof.
  induction Hevs as [|ev evs Hev _ IH]; [reflexivity|].
  cbn [feed].
  assert (Hd : dispatch ev s = (s, Ok tt)).
  { destruct ev as [msg| | |]; try reflexivity.
    cbn in Hev. apply bool_decide_eq_false in Hev.
    cbn. unfold onUBX. case_decide; [|reflexivity].
    apply onUBXMessage_other. exact Hev. }
  rewrite Hd. exact IH.
Qed.

Lemma non_span_discarded_witness :
  feed [EvUBX {| className := "PVT"; numRfBlocks := 0; spectra := [] |};
        EvUBXError 10 49 "checksum";
        EvNMEA "$GNGGA";
        EvNMEAError "$GN";
        EvUBX {| className := "RF"; numRfBlocks := 2; spectra := [] |}] init
  = (init, Ok tt).
Proof.
  apply non_span_discarded. repeat constructor.
Defined.

(** C8: after an update of a reachable, quiescent scope that returns, the
    current, running-maximum and running-mean series of every block of the
    snapshot have the bin count of that block of the snapshot. *)
Theorem series_lengths (msg : ubx_msg) (s s' : scope) (b : nat)
    (Hs : reachable s) (Hq : next_tick s = [])
    (Hu : update msg s = (s', Ok tt)) (Hb : b < numRfBlocks msg) :
  exists blk cur mx cma,
    spectra msg !! b = Some blk /\
    data s' !! key "spectrum" b = Some cur /\
    data s' !! key "spectrumMaxima" b = Some mx /\
    data s' !! key "spectrumCMA" b = Some cma /\
    length cur = length (spectrum blk) /\
    length mx = length (spectrum blk) /\
    length cma = length (spectrum blk).
Proof.
  destruct (update_block _ _ _ b Hs Hq Hu Hb)
    as (blk & pm & pc & Hblk & _ & _ & Hls & Hlm & Hlc & _ & L2 & L3 & L4).
  exists blk, (spectrum blk), (zip_with Qmax (spectrum blk) pm),
    (zip_with (fun c p => (c + p) / 2)%Q (spectrum blk) pc).
  repeat split; try assumption; rewrite length_zip_with; lia.
Qed.

Lemma series_lengths_witness :
  exists blk cur mx cma,
    spectra (flat_span 2 256 10) !! 1 = Some blk /\
    data (update (flat_span 2 256 10) init).1 !! key "spectrum" 1 = Some cur /\
    data (update (flat_span 2 256 10) init).1 !! key "spectrumMaxima" 1 = Some mx /\
    data (update (flat_span 2 256 10) init).1 !! key "spectrumCMA" 1 = Some cma /\
    length cur = length (spectrum blk) /\
    length mx = length (spectrum blk) /\
    length cma = length (spectrum blk).
Proof.
  apply (series_lengths (flat_span 2 256 10) init).
  - apply reach_init.
  - reflexivity.
  - vm_compute. reflexivity.
  - cbn. lia.
Defined.

Lemma reachable_maxima_nonneg (s : scope) (b : nat) (mx : array) :
  reachable s -> data s !! key "spectrumMaxima" b = Some mx -> Forall (Qle 0) mx.
Proof.
  intros Hs Hmx. apply (proj1 (reachable_ok s Hs) b mx). exact Hmx.
Qed.

Lemma running_max_all_negative ops b i :
  Forall (fun m => (bin_value m b i < 0)%Q) (updates ops) -> running_max ops b i = 0%Q.
Proof.
  unfold running_max. induction (updates ops) as [|m ms IH] using rev_ind; intros H.
  - reflexivity.
  - apply Forall_app in H as [Hms Hm]. inversion Hm; subst.
    rewrite fold_left_app. cbn. rewrite IH by exact Hms.
    apply Qmax_neg_zero. assumption.
Qed.

(** C9: in the state after any successful sequence of updates and resets
    from initialisation, no value of a running-maximum series is below zero;
    a bin of a tracked block whose value was negative in every snapshot has
    running maximum 0. *)
Theorem running_max_never_negative (ops : list op) (s : scope) (b : nat)
    (Hrun : run ops init = (s, Ok tt)) :
  (forall mx, data s !! key "spectrumMaxima" b = Some mx -> Forall (Qle 0) mx) /\
  (forall i, b < 2 -> i < SPAN_BIN_COUNT ->
     Forall (fun m => (bin_value m b i < 0)%Q) (updates ops) ->
     exists mx, data s !! key "spectrumMaxima" b = Some mx /\ mx !! i = Some 0%Q).
Proof.
  split.
  - intros mx Hmx.
    destruct (run_reachable _ _ _ _ reach_init eq_refl Hrun) as [Hs _].
    eapply reachable_maxima_nonneg; eassumption.
  - intros i Hb Hi Hneg.
    destruct (run_maxima _ _ _ Hrun Hb) as (mx & Hmx & _ & Hval).
    exists mx. split; [exact Hmx|].
    rewrite (Hval i Hi), running_max_all_negative by exact Hneg. reflexivity.
Qed.

Lemma running_max_never_negative_witness :
  exists mx,
    data (run [Update (flat_span 2 256 (-3)); Reset true;
               Update (flat_span 2 256 (-7))] init).1
      !! key "spectrumMaxima" 0 = Some mx /\
    mx !! 5 = Some 0%Q.
Proof.
  refine (proj2 (running_max_never_negative
                   [Update (flat_span 2 256 (-3)); Reset true;
                    Update (flat_span 2 256 (-7))] _ 0 _) 5 _ _ _).
  - vm_compute. reflexivity.
  - lia.
  - unfold SPAN_BIN_COUNT. lia.
  - repeat constructor.
Defined.

(** C10: the consumer callback called with a PVT message, directly or
    through [onUBX], returns the scope unchanged: all series, the labels and
    the pending publications are as before. *)
Theorem pvt_leaves_state (msg : ubx_msg) (s : scope) :
  onUBXMessage msg "PVT" s = (s, Ok tt) /\
  onUBX {| className := "PVT"; numRfBlocks := numRfBlocks msg;
           spectra := spectra msg |} s = (s, Ok tt).
Proof.
  split.
  - apply onUBXMessage_other. discriminate.
  - unfold onUBX. cbn. case_decide; [|reflexivity].
    apply onUBXMessage_other. discriminate.
Qed.

(** ** Further properties: labels and publication *)

Lemma update_labels_length meta : forall lbls index,
  length (update_labels lbls index meta).1 = length lbls.
Proof.
  induction meta as [|o meta IH]; intros lbls index; [reflexivity|].
  cbn. destruct o as [n| |g]; try reflexivity.
  destruct (decide (index < length lbls)); [|reflexivity].
  rewrite IH. apply length_insert.
Qed.

Lemma reachable_labels (s : scope) : reachable s -> length (labels s) = 2.
Proof.
  induction 1 as [|s msg msgClass s' r _ IH Hm|s s' r _ IH Ht|s new _ IH].
  - reflexivity.
  - destruct (decide (msgClass = "SPAN")) as [->|Hne].
    + apply onUBXMessage_SPAN in Hm as [(e & _ & -> & _)|(nd & nm & _ & _ & ->)];
        exact IH.
    + rewrite onUBXMessage_other in Hm by exact Hne. injection Hm as <- _. exact IH.
  - unfold run_next_tick in Ht. destruct (next_tick s) as [|cb rest].
    + injection Ht as <- _. exact IH.
    + unfold updateSpectrumPlot in Ht. cbn in Ht.
      pose proof (update_labels_length (cb_spectrumMetaData cb) (labels s) 0) as Hl.
      destruct (update_labels (labels s) 0 (cb_spectrumMetaData cb)) as [lbls r'].
      injection Ht as <- _. cbn in *. congruence.
  - rewrite (proj1 (reset_frame new s)). exact IH.
Qed.

(** The metadata list of a payload, entry by entry. *)
Lemma span_payload_meta d msg nd nm :
  span_payload d msg = Ok (nd, nm) ->
  (numRfBlocks msg = 0 /\ nm = [PyInt self_numRfBlocks; PyNone]) \/
  (numRfBlocks msg = 1 /\
     exists blk, spectra msg !! 0 = Some blk /\ nm = [PyDict (pga blk); PyNone]) \/
  (numRfBlocks msg = 2 /\
     exists blk0 blk1, spectra msg !! 0 = Some blk0 /\ spectra msg !! 1 = Some blk1 /\
                       nm = [PyDict (pga blk0); PyDict (pga blk1)]).
Proof.
  intros Hp. apply span_payload_spec in Hp as (Hlen & Hle & Hmeta & _ & Hdone & _).
  destruct nm as [|o0 [|o1 [|o2 nm]]]; try discriminate Hlen.
  destruct (numRfBlocks msg) as [|[|[|n]]] eqn:Hn; [| | |lia].
  - left. split; [reflexivity|].
    pose proof (Hmeta 0 (Nat.le_0_l _)) as H0. pose proof (Hmeta 1 (Nat.le_0_l _)) as H1.
    cbn in H0, H1. congruence.
  - right. left. split; [reflexivity|].
    destruct (Hdone 0) as (blk & pm & pc & mx & cma & Hblk & _ & _ & _ & _ & _ & _ & _ & _ & H0);
      [lia|].
    pose proof (Hmeta 1 (le_n _)) as H1. cbn in H0, H1.
    exists blk. split; [exact Hblk|congruence].
  - right. right. split; [reflexivity|].
    destruct (Hdone 0) as (blk0 & ? & ? & ? & ? & Hblk0 & _ & _ & _ & _ & _ & _ & _ & _ & H0);
      [lia|].
    destruct (Hdone 1) as (blk1 & ? & ? & ? & ? & Hblk1 & _ & _ & _ & _ & _ & _ & _ & _ & H1);
      [lia|].
    cbn in H0, H1. exists blk0, blk1. repeat split; [assumption..|congruence].
Qed.

Lemma span_block_succeeds d msg nd nm b blk pm pc :
  spectra msg !! b = Some blk ->
  d !! key "spectrumMaxima" b = Some pm ->
  d !! key "spectrumCMA" b = Some pc ->
  length (spectrum blk) = length pm ->
  length (spectrum blk) = length pc ->
  b < length nm ->
  span_block d msg (nd, nm) b
  = Ok (with_block nd b blk (zip_with Qmax (spectrum blk) pm)
          (zip_with (fun c p => (c + p) / 2)%Q (spectrum blk) pc),
        <[b := PyDict (pga blk)]> nm).
Proof.
  intros Hblk Hpm Hpc Hlm Hlc Hlt.
  unfold span_block, getitem_list, getitem, setitem_list, mbind, result_bind; cbn [fst snd].
  rewrite Hblk, lookup_insert_eq, Hpm, (np_maximum_same _ _ Hlm).
  rewrite lookup_insert_ne by key_neq. rewrite lookup_insert_eq, Hpc.
  unfold np_mean2. rewrite decide_True by exact Hlc.
  rewrite decide_True by exact Hlt. reflexivity.
Qed.

(** ** Further properties: the running mean over a sequence *)

Lemma running_mean_snoc ops o b i :
  running_mean (ops ++ [o]) b i
  = match o with
    | Update m => ((bin_value m b i + running_mean ops b i) / 2)%Q
    | Reset true => 0%Q
    | Reset false => running_mean ops b i
    end.
Proof. unfold running_mean. rewrite fold_left_app. reflexivity. Qed.

Lemma run_cma ops : forall s b,
  run ops init = (s, Ok tt) -> b < 2 ->
  exists cma, data s !! key "spectrumCMA" b = Some cma /\
              length cma = SPAN_BIN_COUNT /\
              forall i, i < SPAN_BIN_COUNT -> cma !! i = Some (running_mean ops b i).
Proof.
  induction ops as [|o ops IH] using rev_ind; intros s b H Hb.
  - injection H as <-. exists (np_zeros SPAN_BIN_COUNT).
    split; [apply init_cma; exact Hb|]. split; [apply np_zeros_ok|].
    intros i Hi. unfold np_zeros. rewrite lookup_replicate_2 by exact Hi. reflexivity.
  - apply run_snoc in H as (s1 & Hr & Ha).
    destruct (IH _ _ Hr Hb) as (cma1 & Hcma1 & Hlen1 & Hval1).
    destruct (run_reachable _ _ _ _ reach_init eq_refl Hr) as [Hs1 Hq1].
    destruct o as [msg|[|]]; cbn in Ha.
    + pose proof (update_Ok _ _ _ Hq1 Ha) as (Hn & _).
      destruct (update_block _ _ _ b Hs1 Hq1 Ha)
        as (blk & pm & pc & Hblk & _ & Hpc & Hls & _ & Hlc & _ & _ & _ & L4); [lia|].
      rewrite Hcma1 in Hpc. injection Hpc as <-.
      eexists. split; [exact L4|]. split; [rewrite length_zip_with; lia|].
      intros i Hi.
      destruct (lookup_lt_is_Some_2 (spectrum blk) i) as [x Hx]; [lia|].
      rewrite lookup_zip_with, Hx, (Hval1 i Hi). cbn.
      rewrite running_mean_snoc, (bin_value_lookup _ _ _ _ _ Hblk Hx). reflexivity.
    + injection Ha as <-. exists (np_zeros 256).
      split; [apply reset_cma; exact Hb|]. split; [apply np_zeros_ok|].
      intros i Hi. rewrite running_mean_snoc. unfold np_zeros.
      apply lookup_replicate_2. exact Hi.
    + injection Ha as <-. exists cma1. split; [exact Hcma1|]. split; [exact Hlen1|].
      intros i Hi. rewrite running_mean_snoc. apply Hval1. exact Hi.
Qed.

(** X1: the running mean of every bin of the tracked blocks after a
    successful sequence of updates and resets is given by the recurrence
    [mean := (value + mean) / 2] per snapshot, restarted from zero by every
    reset that fires ([new == True]) and left alone by one that does not. *)
Theorem running_mean_recurrence (ops : list op) (s : scope) (b i : nat)
    (Hrun : run ops init = (s, Ok tt)) (Hb : b < 2) (Hi : i < SPAN_BIN_COUNT) :
  exists cma, data s !! key "spectrumCMA" b = Some cma /\
              length cma = SPAN_BIN_COUNT /\
              cma !! i = Some (running_mean ops b i).
Proof.
  destruct (run_cma _ _ _ Hrun Hb) as (cma & Hcma & Hlen & Hval).
  exists cma. repeat split; [assumption..|apply Hval; exact Hi].
Qed.

Lemma running_mean_recurrence_witness :
  exists cma,
    data (run [Update (flat_span 2 256 10); Reset true; Update (flat_span 2 256 6)] init).1
      !! key "spectrumCMA" 1 = Some cma /\
    length cma = SPAN_BIN_COUNT /\
    cma !! 7 = Some (running_mean
                       [Update (flat_span 2 256 10); Reset true;
                        Update (flat_span 2 256 6)] 1 7).
Proof.
  apply (running_mean_recurrence
           [Update (flat_span 2 256 10); Reset true; Update (flat_span 2 256 6)]).
  - vm_compute. reflexivity.
  - lia.
  - unfold SPAN_BIN_COUNT. lia.
Defined.

Lemma running_mean_between (ops : list op) (b i : nat) (lo hi : Q) :
  (lo <= 0)%Q -> (0 <= hi)%Q ->
  Forall (fun m => (lo <= bin_value m b i <= hi)%Q) (updates ops) ->
  (lo <= running_mean ops b i <= hi)%Q.
Proof.
  intros Hlo Hhi. induction ops as [|o ops IH] using rev_ind; intros H.
  - cbn. split; assumption.
  - unfold updates in H. rewrite omap_app in H. apply Forall_app in H as [Hops Ho].
    specialize (IH Hops). rewrite running_mean_snoc. destruct o as [m|[|]].
    + cbn in Ho. inversion Ho as [|? ? Hm _]; subst. destruct Hm as [Hm1 Hm2].
      destruct IH as [IH1 IH2]. split.
      * apply Qle_shift_div_l; [reflexivity|]. lra.
      * apply Qle_shift_div_r; [reflexivity|]. lra.
    + split; assumption.
    + exact IH.
Qed.

(** X2: the running mean stays within the range of what it has averaged:
    after a successful sequence of updates and resets from the initial state,
    when every snapshot had a value between [lo] and [hi] in a bin, with
    [lo <= 0 <= hi] for the zero the mean starts from, the running mean of
    that bin lies between [lo] and [hi]. *)
Theorem running_mean_bounded (ops : list op) (s : scope) (b i : nat) (lo hi : Q)
    (Hrun : run ops init = (s, Ok tt)) (Hb : b < 2) (Hi : i < SPAN_BIN_COUNT)
    (Hlo : (lo <= 0)%Q) (Hhi : (0 <= hi)%Q)
    (Hin : Forall (fun m => (lo <= bin_value m b i <= hi)%Q) (updates ops)) :
  exists cma x, data s !! key "spectrumCMA" b = Some cma /\ cma !! i = Some x /\
                (lo <= x <= hi)%Q.
Proof.
  destruct (run_cma _ _ _ Hrun Hb) as (cma & Hcma & _ & Hval).
  exists cma, (running_mean ops b i).
  split; [exact Hcma|]. split; [apply Hval; exact Hi|].
  apply running_mean_between; assumption.
Qed.

Lemma running_mean_bounded_witness :
  exists cma x,
    data (run [Update (flat_span 2 256 8); Reset true; Update (flat_span 2 256 (-3))]
            init).1 !! key "spectrumCMA" 0 = Some cma /\
    cma !! 3 = Some x /\ (-3 <= x <= 8)%Q.
Proof.
  apply (running_mean_bounded
           [Update (flat_span 2 256 8); Reset true; Update (flat_span 2 256 (-3))]).
  - vm_compute. reflexivity.
  - lia.
  - unfold SPAN_BIN_COUNT. lia.
  - vm_compute. discriminate.
  - vm_compute. discriminate.
  - repeat constructor; vm_compute; discriminate.
Defined.

(** ** Further properties: when an update returns *)

Lemma labels_two (s : scope) :
  reachable s -> exists l0 l1, labels s = [l0; l1].
Proof.
  intros Hs. apply reachable_labels in Hs.
  destruct (labels s) as [|l0 [|l1 [|l2 ls]]]; try discriminate Hs. eauto.
Qed.

(** X3: after any successful sequence of updates and resets, the next
    update returns normally exactly when the snapshot has two RF blocks and
    each of them has [SPAN_BIN_COUNT] power values; the length of the
    frequency axis is never looked at. *)
Theorem update_returns_iff (ops : list op) (s : scope) (msg : ubx_msg)
    (Hrun : run ops init = (s, Ok tt)) :
  (exists s', update msg s = (s', Ok tt)) <->
  (numRfBlocks msg = 2 /\
   forall b, b < 2 ->
     exists blk, spectra msg !! b = Some blk /\ length (spectrum blk) = SPAN_BIN_COUNT).
Proof.
  destruct (run_reachable _ _ _ _ reach_init eq_refl Hrun) as [Hs Hq].
  split.
  - intros [s' Hu]. pose proof (update_Ok _ _ _ Hq Hu) as (Hn & _).
    split; [exact Hn|]. intros b Hb.
    destruct (update_block _ _ _ b Hs Hq Hu)
      as (blk & pm & pc & Hblk & _ & _ & Hls & _); [lia|].
    exists blk. split; assumption.
  - intros [Hn Hblocks].
    destruct (Hblocks 0) as (blk0 & Hblk0 & Hl0); [lia|].
    destruct (Hblocks 1) as (blk1 & Hblk1 & Hl1); [lia|].
    destruct (run_maxima _ _ 0 Hrun) as (pm0 & Hpm0 & Hlm0 & _); [lia|].
    destruct (run_maxima _ _ 1 Hrun) as (pm1 & Hpm1 & Hlm1 & _); [lia|].
    destruct (run_cma _ _ 0 Hrun) as (pc0 & Hpc0 & Hlc0 & _); [lia|].
    destruct (run_cma _ _ 1 Hrun) as (pc1 & Hpc1 & Hlc1 & _); [lia|].
    destruct (labels_two s Hs) as (l0 & l1 & Hlbl).
    unfold update, onUBXMessage. rewrite decide_True by reflexivity.
    unfold span_payload, range. rewrite Hn. cbn [seq for_each].
    rewrite (span_block_succeeds _ _ _ _ _ _ _ _ Hblk0 Hpm0 Hpc0)
      by (cbn; congruence || lia).
    rewrite (span_block_succeeds _ _ _ _ _ _ _ _ Hblk1 Hpm1 Hpc1)
      by (cbn; congruence || lia).
    unfold run_next_tick. cbn [next_tick]. rewrite Hq. cbn [app].
    unfold updateSpectrumPlot. cbn [cb_spectrumData cb_spectrumMetaData labels next_tick].
    rewrite Hlbl. cbn. eexists. reflexivity.
Qed.

Lemma update_returns_iff_witness :
  (exists s', update (flat_span 2 256 7)
                (run [Update (flat_span 2 256 10); Reset true] init).1 = (s', Ok tt)) <->
  (numRfBlocks (flat_span 2 256 7) = 2 /\
   forall b, b < 2 ->
     exists blk, spectra (flat_span 2 256 7) !! b = Some blk /\
                 length (spectrum blk) = SPAN_BIN_COUNT).
Proof.
  apply (update_returns_iff [Update (flat_span 2 256 10); Reset true]).
  vm_compute. reflexivity.
Defined.

(** X4: an update of a reachable, quiescent scope that returns leaves the
    two metadata labels reading the gain of block 0 and of block 1 of the
    snapshot, and stores the frequency axis of every block as the snapshot
    gave it. *)
Theorem update_publishes_gain_and_axis (msg : ubx_msg) (s s' : scope)
    (Hs : reachable s) (Hq : next_tick s = []) (Hu : update msg s = (s', Ok tt)) :
  exists blk0 blk1,
    spectra msg !! 0 = Some blk0 /\ spectra msg !! 1 = Some blk1 /\
    labels s' = [label_text (pga blk0); label_text (pga blk1)] /\
    data s' !! key "spectrumBinCenterFreqs" 0 = Some (spectrumBinCenterFreqs blk0) /\
    data s' !! key "spectrumBinCenterFreqs" 1 = Some (spectrumBinCenterFreqs blk1).
Proof.
  pose proof (update_Ok _ _ _ Hq Hu) as (Hn & _).
  apply update_cases in Hu as [(e & _ & _ & [=])|(nd & nm & Hp & -> & Hr)]; [|exact Hq].
  destruct (span_payload_meta _ _ _ _ Hp)
    as [[Hn' _]|[[Hn' _]|(_ & blk0 & blk1 & Hblk0 & Hblk1 & ->)]]; [lia..|].
  apply span_payload_spec in Hp as (_ & _ & _ & _ & Hdone & _).
  destruct (Hdone 0) as (b0 & ? & ? & ? & ? & Hb0 & _ & _ & _ & _ & F0 & _); [lia|].
  destruct (Hdone 1) as (b1 & ? & ? & ? & ? & Hb1 & _ & _ & _ & _ & F1 & _); [lia|].
  rewrite Hblk0 in Hb0. injection Hb0 as <-. rewrite Hblk1 in Hb1. injection Hb1 as <-.
  destruct (labels_two s Hs) as (l0 & l1 & Hlbl).
  exists blk0, blk1. cbn [data labels]. rewrite Hlbl.
  repeat split; assumption.
Qed.

Lemma update_publishes_gain_and_axis_witness :
  exists blk0 blk1,
    spectra (flat_span 2 256 10) !! 0 = Some blk0 /\
    spectra (flat_span 2 256 10) !! 1 = Some blk1 /\
    labels (update (flat_span 2 256 10) init).1
      = [label_text (pga blk0); label_text (pga blk1)] /\
    data (update (flat_span 2 256 10) init).1 !! key "spectrumBinCenterFreqs" 0
      = Some (spectrumBinCenterFreqs blk0) /\
    data (update (flat_span 2 256 10) init).1 !! key "spectrumBinCenterFreqs" 1
      = Some (spectrumBinCenterFreqs blk1).
Proof.
  apply (update_publishes_gain_and_axis (flat_span 2 256 10) init).
  - apply reach_init.
  - reflexivity.
  - vm_compute. reflexivity.
Defined.

(** X5: a SPAN message of fewer than two RF blocks that the callback
    accepts is published all the same: the data source is replaced by the
    payload, which holds series for the blocks of the snapshot only, the
    label of block 0 is updated when the snapshot has that block, and then
    [updateSpectrumPlot] raises [TypeError] on the placeholder left in the
    metadata list. *)
Theorem short_snapshot_publishes_then_raises (msg : ubx_msg) (s : scope)
    (nd : gmap string array) (nm : list pyobj)
    (Hs : reachable s) (Hq : next_tick s = [])
    (Hn : numRfBlocks msg < 2)
    (Hp : span_payload (data s) msg = Ok (nd, nm)) :
  exists lbls,
    update msg s = ({| data := nd; labels := lbls; next_tick := [] |}, Raise TypeError) /\
    size nd = 4 * numRfBlocks msg /\
    (forall kind, kind ∈ seriesKinds -> nd !! key kind 1 = None) /\
    (numRfBlocks msg = 0 -> lbls = labels s) /\
    (numRfBlocks msg = 1 ->
       exists blk, spectra msg !! 0 = Some blk /\
                   lbls = <[0 := label_text (pga blk)]> (labels s)).
Proof.
  destruct (labels_two s Hs) as (l0 & l1 & Hlbl).
  pose proof (span_payload_spec _ _ _ _ Hp) as (_ & _ & _ & Hother & _ & Hsize).
  assert (Hu : forall lbls r,
             update_labels (labels s) 0 nm = (lbls, r) ->
             update msg s = ({| data := nd; labels := lbls; next_tick := [] |}, r)).
  { intros lbls r Hl. unfold update, onUBXMessage. rewrite decide_True by reflexivity.
    rewrite Hp. unfold run_next_tick. cbn [next_tick]. rewrite Hq. cbn [app].
    unfold updateSpectrumPlot. cbn [cb_spectrumData cb_spectrumMetaData labels next_tick].
    rewrite Hl. reflexivity. }
  assert (Hno : forall kind, kind ∈ seriesKinds -> nd !! key kind 1 = None).
  { intros kind Hk.
    apply Hother. intros kind' b Hk' Hb. apply key_ne; [assumption..|right; lia]. }
  destruct (span_payload_meta _ _ _ _ Hp)
    as [[Hn0 ->]|[(Hn1 & blk & Hblk & ->)|[Hn2 _]]]; [| |lia].
  - exists (labels s). split; [apply Hu; reflexivity|].
    repeat split; [exact Hsize|exact Hno|lia].
  - exists (<[0 := label_text (pga blk)]> (labels s)).
    split; [apply Hu; rewrite Hlbl; reflexivity|].
    split; [exact Hsize|]. split; [exact Hno|]. split; [lia|].
    intros _. exists blk. split; [exact Hblk|reflexivity].
Qed.

Lemma short_snapshot_publishes_then_raises_witness :
  exists lbls,
    update (flat_span 1 256 10) init
    = ({| data := (onUBXMessage_payload_of (flat_span 1 256 10) init).1;
          labels := lbls; next_tick := [] |}, Raise TypeError) /\
    size (onUBXMessage_payload_of (flat_span 1 256 10) init).1
    = 4 * numRfBlocks (flat_span 1 256 10) /\
    (forall kind, kind ∈ seriesKinds ->
       (onUBXMessage_payload_of (flat_span 1 256 10) init).1 !! key kind 1 = None) /\
    (numRfBlocks (flat_span 1 256 10) = 0 -> lbls = labels init) /\
    (numRfBlocks (flat_span 1 256 10) = 1 ->
       exists blk, spectra (flat_span 1 256 10) !! 0 = Some blk /\
                   lbls = <[0 := label_text (pga blk)]> (labels init)).
Proof.
  apply (short_snapshot_publishes_then_raises (flat_span 1 256 10) init
           (onUBXMessage_payload_of (flat_span 1 256 10) init).1
           (onUBXMessage_payload_of (flat_span 1 256 10) init).2).
  - apply reach_init.
  - reflexivity.
  - cbn. lia.
  - vm_compute. reflexivity.
Defined.

(** ** Further properties: snapshots the callback rejects *)

(** X6: a SPAN message that announces more than two RF blocks, or more
    blocks than its [spectra] list holds, makes the callback raise; nothing
    is scheduled and the scope is left exactly as it was. *)
Theorem malformed_snapshot_raises (msg : ubx_msg) (s : scope)
    (Hbad : 2 < numRfBlocks msg \/ length (spectra msg) < numRfBlocks msg) :
  exists e, onUBXMessage msg "SPAN" s = (s, Raise e) /\ update msg s = (s, Raise e).
Proof.
  unfold update. destruct (onUBXMessage msg "SPAN" s) as [s1 r] eqn:Hm.
  apply onUBXMessage_SPAN in Hm as [(e & _ & -> & ->)|(nd & nm & Hp & _ & _)].
  - exists e. split; reflexivity.
  - exfalso. apply span_payload_spec in Hp as (_ & Hle & _ & _ & Hdone & _).
    destruct Hbad as [Hbad|Hbad]; [lia|].
    destruct (Hdone (length (spectra msg)) Hbad) as (blk & ? & ? & ? & ? & Hblk & _).
    apply lookup_lt_Some in Hblk. lia.
Qed.

Lemma malformed_snapshot_raises_witness :
  exists e, onUBXMessage (flat_span 3 256 10) "SPAN" init = (init, Raise e) /\
            update (flat_span 3 256 10) init = (init, Raise e).
Proof.
  apply malformed_snapshot_raises. left. cbn. lia.
Defined.

Lemma payload_maxima_from_data d msg nd nm b :
  span_payload d msg = Ok (nd, nm) ->
  is_Some (nd !! key "spectrumMaxima" b) ->
  b < numRfBlocks msg /\ is_Some (d !! key "spectrumMaxima" b).
Proof.
  intros Hp Hs.
  apply (span_payload_keys _ _ _ _ _ Hp) in Hs as (kind & b' & Hk & Hb' & E).
  apply key_inj in E as [_ ->]; [|kind_in|exact Hk].
  split; [exact Hb'|].
  apply span_payload_spec in Hp as (_ & _ & _ & _ & Hdone & _).
  destruct (Hdone b' Hb') as (blk & pm & ? & ? & ? & _ & Hpm & _). eauto.
Qed.

Lemma update_keeps_missing msg s s' r b :
  next_tick s = [] -> data s !! key "spectrumMaxima" b = None ->
  update msg s = (s', r) -> data s' !! key "spectrumMaxima" b = None.
Proof.
  intros Hq Hnone Hu.
  apply update_cases in Hu as [(e & _ & -> & _)|(nd & nm & Hp & -> & _)];
    [exact Hnone| |exact Hq].
  cbn. destruct (nd !! key "spectrumMaxima" b) as [l|] eqn:Hl; [exfalso|reflexivity].
  destruct (payload_maxima_from_data _ _ _ _ b Hp) as [_ [l' Hl']]; [eauto|].
  congruence.
Qed.

(** X7: once the running maximum of a tracked block is missing from the
    data source (as after the publication of a snapshot of fewer blocks), it
    stays missing through every further sequence of updates and resets, and
    no later update returns normally. *)
Theorem missing_series_is_permanent (ops : list op) (s s' : scope) (r : result unit)
    (b : nat) (Hq : next_tick s = []) (Hb : b < 2)
    (Hmiss : data s !! key "spectrumMaxima" b = None)
    (Hrun : run ops s = (s', r)) :
  data s' !! key "spectrumMaxima" b = None /\
  forall msg s'', update msg s' <> (s'', Ok tt).
Proof.
  assert (Hkeep : next_tick s' = [] /\ data s' !! key "spectrumMaxima" b = None).
  { revert s Hq Hmiss Hrun. induction ops as [|o ops IH]; intros s Hq Hmiss Hrun;
      cbn in Hrun.
    - injection Hrun as <- _. split; assumption.
    - destruct (apply_op o s) as [s1 r1] eqn:Ho.
      assert (Hs1 : next_tick s1 = [] /\ data s1 !! key "spectrumMaxima" b = None).
      { split; [eapply apply_op_quiescent; eassumption|].
        destruct o as [msg|new]; cbn in Ho.
        - eapply update_keeps_missing; eassumption.
        - injection Ho as <- _. destruct new; [|exact Hmiss].
          rewrite reset_other by (intros b'; key_neq). exact Hmiss. }
      destruct Hs1 as [Hq1 Hm1]. destruct r1 as [[]|e].
      + eapply IH; eassumption.
      + injection Hrun as <- _. split; assumption. }
  destruct Hkeep as [Hq' Hmiss']. split; [exact Hmiss'|].
  intros msg s'' Hu. pose proof (update_Ok _ _ _ Hq' Hu) as (Hn & _ & nm & Hp).
  apply span_payload_spec in Hp as (_ & _ & _ & _ & Hdone & _).
  destruct (Hdone b) as (blk & pm & ? & ? & ? & _ & Hpm & _); [lia|]. congruence.
Qed.

Lemma missing_series_is_permanent_witness :
  data (run [Reset true; Update (flat_span 2 256 3)]
          (update (flat_span 1 256 10) init).1).1 !! key "spectrumMaxima" 1 = None /\
  forall msg s'',
    update msg (run [Reset true; Update (flat_span 2 256 3)]
                  (update (flat_span 1 256 10) init).1).1 <> (s'', Ok tt).
Proof.
  apply (missing_series_is_permanent [Reset true; Update (flat_span 2 256 3)]
           (update (flat_span 1 256 10) init).1 _
           (run [Reset true; Update (flat_span 2 256 3)]
              (update (flat_span 1 256 10) init).1).2 1).
  - vm_compute. reflexivity.
  - lia.
  - vm_compute. reflexivity.
  - apply surjective_pairing.
Defined.

(** ** Further properties: the series stay below the running maximum *)










(** ** Further properties: the message source and the ticks *)

Lemma dispatch_not_SPAN ev s : is_SPAN ev = false -> dispatch ev s = (s, Ok tt).
Proof.
  intros Hev. destruct ev as [msg| | |]; try reflexivity.
  cbn in Hev. apply bool_decide_eq_false in Hev.
  cbn. unfold onUBX. case_decide; [|reflexivity].
  apply onUBXMessage_other. exact Hev.
Qed.

Lemma dispatch_SPAN ev s :
  is_SPAN ev = true ->
  exists m, ev = EvUBX m /\ dispatch ev s = onUBXMessage m "SPAN" s.
Proof.
  intros Hev. destruct ev as [msg| | |]; try discriminate Hev.
  cbn in Hev. apply bool_decide_eq_true in Hev.
  exists msg. split; [reflexivity|]. cbn. unfold onUBX.
  rewrite decide_True by (rewrite Hev; repeat constructor).
  rewrite Hev. reflexivity.
Qed.

(** X9: the scope sees a stream of reports as it sees the SPAN messages
    in it alone: the outcome of feeding the reports is that of feeding them
    with everything but the SPAN messages removed. *)
Theorem feed_spans_only (evs : list event) (s : scope) :
  feed evs s = feed (List.filter is_SPAN evs) s.
Proof.
  revert s. induction evs as [|ev evs IH]; intros s; [reflexivity|].
  cbn [feed List.filter]. destruct (is_SPAN ev) eqn:Hev.
  - cbn [feed]. destruct (dispatch ev s) as [s1 [[]|e]]; [apply IH|reflexivity].
  - rewrite (dispatch_not_SPAN _ _ Hev). apply IH.
Qed.

Lemma span_msgs_cons ev evs :
  span_msgs (ev :: evs)
  = match ev with
    | EvUBX m => if is_SPAN ev then m :: span_msgs evs else span_msgs evs
    | _ => span_msgs evs
    end.
Proof.
  unfold span_msgs. cbn [omap list_omap].
  destruct ev as [m| | |]; try reflexivity. destruct (is_SPAN (EvUBX m)); reflexivity.
Qed.

Lemma span_count_msgs evs : span_count evs = length (span_msgs evs).
Proof.
  unfold span_count. induction evs as [|ev evs IH]; [reflexivity|].
  rewrite span_msgs_cons. cbn [List.filter].
  destruct ev as [m| | |]; try exact IH.
  destruct (is_SPAN (EvUBX m)); cbn; congruence.
Qed.

Lemma callback_of_Ok d msg nd nm :
  span_payload d msg = Ok (nd, nm) ->
  callback_of d msg = {| cb_spectrumData := nd; cb_spectrumMetaData := nm |}.
Proof. intros H. unfold callback_of. rewrite H. reflexivity. Qed.

Lemma feed_state evs : forall s s',
  feed evs s = (s', Ok tt) ->
  data s' = data s /\ labels s' = labels s /\
  next_tick s' = next_tick s ++ (callback_of (data s) <$> span_msgs evs) /\
  Forall (fun m => exists p, span_payload (data s) m = Ok p) (span_msgs evs).
Proof.
  induction evs as [|ev evs IH]; intros s s' H; cbn [feed] in H.
  - injection H as <-. cbn. rewrite app_nil_r. repeat split. constructor.
  - destruct (is_SPAN ev) eqn:Hev.
    + destruct (dispatch_SPAN ev s Hev) as (m & -> & Hd). rewrite Hd in H.
      destruct (onUBXMessage m "SPAN" s) as [s1 r1] eqn:Hm.
      apply onUBXMessage_SPAN in Hm as [(e & _ & -> & ->)|(nd & nm & Hp & -> & ->)];
        [discriminate H|].
      apply IH in H as (Hdata & Hlbl & Hnext & Hall). cbn in Hdata, Hlbl, Hnext, Hall.
      rewrite span_msgs_cons, Hev. cbn [fmap list_fmap].
      rewrite (callback_of_Ok _ _ _ _ Hp).
      split; [exact Hdata|]. split; [exact Hlbl|]. split.
      * rewrite Hnext, <- app_assoc. reflexivity.
      * constructor; [eauto|exact Hall].
    + rewrite (dispatch_not_SPAN _ _ Hev) in H. apply IH in H.
      rewrite span_msgs_cons. destruct ev as [m| | |]; try exact H.
      rewrite Hev. exact H.
Qed.

(** X10: callbacks only queue: a stream of reports that is taken without an
    exception leaves the published series and the labels as they were and
    adds one pending publication per SPAN message, never merging two. *)
Theorem feed_only_queues (evs : list event) (s s' : scope)
    (Hfeed : feed evs s = (s', Ok tt)) :
  data s' = data s /\ labels s' = labels s /\
  length (next_tick s') = length (next_tick s) + span_count evs.
Proof.
  apply feed_state in Hfeed as (Hd & Hl & Hn & _).
  split; [exact Hd|]. split; [exact Hl|].
  rewrite Hn, length_app, length_fmap, span_count_msgs. reflexivity.
Qed.

Lemma feed_only_queues_witness :
  data (feed [EvUBX (flat_span 2 256 10); EvNMEA "$GNGGA"; EvUBX (flat_span 2 256 5)]
          init).1 = data init /\
  labels (feed [EvUBX (flat_span 2 256 10); EvNMEA "$GNGGA"; EvUBX (flat_span 2 256 5)]
            init).1 = labels init /\
  length (next_tick
            (feed [EvUBX (flat_span 2 256 10); EvNMEA "$GNGGA";
                   EvUBX (flat_span 2 256 5)] init).1)
  = length (next_tick init)
    + span_count [EvUBX (flat_span 2 256 10); EvNMEA "$GNGGA"; EvUBX (flat_span 2 256 5)].
Proof.
  apply feed_only_queues. vm_compute. reflexivity.
Defined.

Lemma run_next_tick_cons s cb rest :
  next_tick s = cb :: rest ->
  data (run_next_tick s).1 = cb_spectrumData cb /\
  next_tick (run_next_tick s).1 = rest.
Proof.
  intros Hn. unfold run_next_tick, updateSpectrumPlot. rewrite Hn. cbn.
  destruct (update_labels (labels s) 0 (cb_spectrumMetaData cb)). split; reflexivity.
Qed.

Lemma run_ticks_last cbs : forall s cb,
  next_tick s = cbs ++ [cb] ->
  data (run_ticks (S (length cbs)) s) = cb_spectrumData cb /\
  next_tick (run_ticks (S (length cbs)) s) = [].
Proof.
  induction cbs as [|c cbs IH]; intros s cb Hn; cbn [length run_ticks].
  - apply (run_next_tick_cons s cb []). exact Hn.
  - destruct (run_next_tick_cons s c (cbs ++ [cb]) Hn) as [_ Hrest].
    apply (IH _ cb Hrest).
Qed.

(** X11: snapshots that arrive before the document ticks are each
    aggregated against the series published last, not against one another:
    once all their publications have run, the data source holds what an
    update with the last snapshot alone would have produced, and the earlier
    snapshots have left no trace in the running maximum or mean. *)
Theorem only_last_snapshot_survives (evs : list event) (s s1 : scope)
    (ms : list ubx_msg) (m : ubx_msg)
    (Hq : next_tick s = [])
    (Hfeed : feed evs s = (s1, Ok tt))
    (Hlast : span_msgs evs = ms ++ [m]) :
  data (run_ticks (span_count evs) s1) = data (update m s).1 /\
  next_tick (run_ticks (span_count evs) s1) = [].
Proof.
  apply feed_state in Hfeed as (_ & _ & Hn & Hall).
  rewrite Hq, Hlast, fmap_app in Hn. cbn in Hn.
  rewrite span_count_msgs, Hlast, length_app, Nat.add_comm. cbn [length Nat.add].
  rewrite <- (length_fmap (callback_of (data s)) ms).
  destruct (run_ticks_last _ _ _ Hn) as [Hd Ht]. split; [|exact Ht].
  rewrite Hd. rewrite Hlast in Hall. apply Forall_app in Hall as [_ Hm].
  inversion Hm as [|? ? [[nd nm] Hp] _]; subst.
  rewrite (callback_of_Ok _ _ _ _ Hp). cbn.
  destruct (update m s) as [s' r] eqn:Hu.
  apply update_cases in Hu as [(e & He & _)|(nd' & nm' & Hp' & -> & _)]; [|cbn|exact Hq];
    congruence.
Qed.

Lemma only_last_snapshot_survives_witness :
  data (run_ticks (span_count [EvUBX (flat_span 2 256 10); EvUBX (flat_span 2 256 5)])
          (feed [EvUBX (flat_span 2 256 10); EvUBX (flat_span 2 256 5)] init).1)
  = data (update (flat_span 2 256 5) init).1 /\
  next_tick (run_ticks (span_count [EvUBX (flat_span 2 256 10); EvUBX (flat_span 2 256 5)])
               (feed [EvUBX (flat_span 2 256 10); EvUBX (flat_span 2 256 5)] init).1)
  = [].
Proof.
  apply (only_last_snapshot_survives
           [EvUBX (flat_span 2 256 10); EvUBX (flat_span 2 256 5)] init _
           [flat_span 2 256 10] (flat_span 2 256 5)).
  - reflexivity.
  - vm_compute. reflexivity.
  - reflexivity.
Defined.

(** ** Further properties: the reset handler and the series names *)

(** X12: the reset handler is idempotent, does nothing when the trace is
    being hidden ([new] false), never touches the labels or the pending
    publications, and changes no series other than the running mean of the
    two tracked blocks. *)
Theorem reset_idempotent_and_local (new : bool) (s : scope) :
  cmaVisibleChangeHandler new (cmaVisibleChangeHandler new s)
  = cmaVisibleChangeHandler new s /\
  cmaVisibleChangeHandler false s = s /\
  labels (cmaVisibleChangeHandler new s) = labels s /\
  next_tick (cmaVisibleChangeHandler new s) = next_tick s /\
  (forall k : string,
     (forall b, b < self_numRfBlocks -> k <> key "spectrumCMA" b) ->
     data (cmaVisibleChangeHandler new s) !! k = data s !! k).
Proof.
  split; [|split; [reflexivity|split; [apply reset_frame|split; [apply reset_frame|]]]].
  - destruct new; [|reflexivity].
    unfold cmaVisibleChangeHandler, range, self_numRfBlocks. cbn [data labels next_tick seq fold_left].
    f_equal. apply map_eq. intros k.
    destruct (decide (k = key "spectrumCMA" 1)) as [->|H1].
    + rewrite !lookup_insert_eq. reflexivity.
    + rewrite (lookup_insert_ne _ (key "spectrumCMA" 1)) by congruence.
      rewrite (lookup_insert_ne (<[key "spectrumCMA" 0 := _]> (data s))
                 (key "spectrumCMA" 1)) by congruence.
      destruct (decide (k = key "spectrumCMA" 0)) as [->|H0].
      * rewrite !lookup_insert_eq. reflexivity.
      * rewrite !lookup_insert_ne by congruence. reflexivity.
  - intros k Hk. destruct new; [|reflexivity].
    unfold cmaVisibleChangeHandler, range, self_numRfBlocks. cbn [data seq fold_left].
    rewrite !lookup_insert_ne; [reflexivity|..]; intros E; symmetry in E; revert E;
      apply Hk; unfold self_numRfBlocks; lia.
Qed.

(** X13: the names of the series never collide: for series kinds of the
    program, two names [<kind>_<block>] are the same string exactly when
    both the kind and the block index are the same. *)
Theorem series_names_distinct (kind kind' : string) (b b' : nat)
    (Hk : kind ∈ seriesKinds) (Hk' : kind' ∈ seriesKinds) :
  key kind b = key kind' b' <-> kind = kind' /\ b = b'.
Proof.
  split.
  - apply key_inj; assumption.
  - intros [-> ->]. reflexivity.
Qed.

Lemma series_names_distinct_witness :
  key "spectrum" 1 = key "spectrumCMA" 11 <-> "spectrum" = "spectrumCMA" /\ 1 = 11.
Proof.
  apply series_names_distinct; unfold seriesKinds; repeat constructor.
Defined.
